(** * RegioJet delay monitor: a shallow embedding of [regiojet_api.py] and [app.py]

    The client class [RegioJetAPI] and the Flask endpoint [get_delays] are
    translated function by function.  JSON objects received from the upstream
    service become records: a key the code reads with [d['k']] is a plain
    field, a key it reads with [d.get('k')] or [d.get('k', default)] is an
    [option] field ([None] = key absent).  Python exceptions are an error
    type; the network is an explicit argument. *)

From Stdlib Require Import ZArith List Bool String Ascii Lia.
From Stdlib Require Import Numbers.DecimalString.
From Stdlib Require Import Floats.SpecFloat.
From Stdlib Require Numbers.DecimalZ.
Import ListNotations.

Open Scope string_scope.
Open Scope Z_scope.

(** ** Exceptions and the error monad *)

Inductive exn : Type :=
| HTTPError (code : Z)
| URLError
| JSONDecodeError
| ZeroDivisionError
| OverflowError
| ValueError.

Inductive result (A : Type) : Type :=
| Ok (a : A)
| Raise (e : exn).

Arguments Ok {A} a.
Arguments Raise {A} e.

Definition bind {A B : Type} (m : result A) (k : A -> result B) : result B :=
  match m with
  | Ok a => k a
  | Raise e => Raise e
  end.

Notation "x <- m ;; k" := (bind m (fun x => k))
  (at level 61, m at next level, right associativity).

(** ** Data received from the upstream service *)

Module Stop.
(** One entry of a route's ['connectionStations']. *)
Record t : Type := mk {
  stationId : Z;
  arrival : option string;
  departure : option string;
  platform : option string
}.
End Stop.

Module Route.
(** One element of the departures (or arrivals) array. *)
Record t : Type := mk {
  number : option string;
  label : option string;
  delay : option Z;
  freeSeatsCount : option Z;
  vehicleStandard : option string;
  connectionStations : option (list Stop.t)
}.
End Route.

Module Station.
Record t : Type := mk {
  name : string;
  id : Z;
  fullname : option string;
  address : option string
}.
End Station.

Module City.
Record t : Type := mk {
  name : string;
  id : Z;
  stations : option (list Station.t)
}.
End City.

Module Country.
Record t : Type := mk {
  cities : option (list City.t)
}.
End Country.

(** [dict.get(key, default)] on an optional field. *)
Definition get {A : Type} (field : option A) (default : A) : A :=
  match field with
  | Some v => v
  | None => default
  end.

(** ** The upstream service

    [_make_request] either returns the decoded body or re-raises the
    transport, HTTP or decoding error; the three typed queries built on it
    are the fields of the service. *)

Record Upstream : Type := {
  get_arrivals : Z -> Z -> result (list Route.t);
  get_departures : Z -> Z -> result (list Route.t);
  get_all_locations : result (list Country.t)
}.

(** ** Records the client emits *)

Module Summary.
(** The dictionary [find_route] appends for each matching route. *)
Record t : Type := mk {
  number : option string;
  label : option string;
  delay : Z;
  free_seats : Z;
  departure_time : option string;
  arrival_time : option string;
  departure_platform : option string;
  arrival_platform : option string;
  vehicle_standard : option string;
  all_stations : list Stop.t
}.
End Summary.

Module Match.
(** The dictionary [find_station] appends for each matching station. *)
Record t : Type := mk {
  city : string;
  city_id : Z;
  station : string;
  station_id : Z;
  fullname : string;
  address : string
}.
End Match.

(** ** [find_route] *)

(** The four local variables of the inner loop of [find_route]. *)
Record times : Type := mk_times {
  departure_time : option string;
  arrival_time : option string;
  departure_platform : option string;
  arrival_platform : option string
}.

Definition no_times : times := mk_times None None None None.

(** Body of [for station in stations]: two independent [if]s, each
    overwriting its pair of variables. *)
Definition scan_step (from_station_id to_station_id : Z)
    (v : times) (station : Stop.t) : times :=
  let v1 :=
    if Stop.stationId station =? from_station_id
    then mk_times (Stop.departure station) (arrival_time v)
                  (Stop.platform station) (arrival_platform v)
    else v in
  if Stop.stationId station =? to_station_id
  then mk_times (departure_time v1) (Stop.arrival station)
                (departure_platform v1) (Stop.platform station)
  else v1.

Definition scan_stops (from_station_id to_station_id : Z)
    (stations : list Stop.t) : times :=
  fold_left (scan_step from_station_id to_station_id) stations no_times.

(** [x in xs] on a list of integers. *)
Definition contains_id (x : Z) (xs : list Z) : bool :=
  existsb (Z.eqb x) xs.

(** Body of [for route in departures]. *)
Definition route_step (from_station_id to_station_id : Z)
    (routes : list Summary.t) (route : Route.t) : list Summary.t :=
  let stations := get (Route.connectionStations route) [] in
  let station_ids := map Stop.stationId stations in
  if contains_id to_station_id station_ids then
    let v := scan_stops from_station_id to_station_id stations in
    routes ++ [Summary.mk
                 (Route.number route)
                 (Route.label route)
                 (get (Route.delay route) 0)
                 (get (Route.freeSeatsCount route) 0)
                 (departure_time v)
                 (arrival_time v)
                 (departure_platform v)
                 (arrival_platform v)
                 (Route.vehicleStandard route)
                 stations]
  else routes.

Definition find_route (api : Upstream) (from_station_id to_station_id : Z)
    (limit : Z) : result (list Summary.t) :=
  departures <- get_departures api from_station_id limit ;;
  Ok (fold_left (route_step from_station_id to_station_id) departures []).

(** ** [check_delays] *)

Definition check_delays (api : Upstream) (from_station_id to_station_id : Z)
    (threshold : Z) : result (list Summary.t) :=
  routes <- find_route api from_station_id to_station_id 50 ;;
  if threshold >? 0
  then Ok (filter (fun r => Summary.delay r >=? threshold) routes)
  else Ok routes.

(** ** Text: [str.lower], [str.upper] and the substring test [a in b]

    A Python [str] is held as its UTF-8 encoding, so that what is printed
    is the text itself.  The case conversions decode the text into code
    points, convert them with the tables of the Unicode character database
    (version 14.0.0, as CPython 3.11 carries them) and encode the result.
    A byte sequence is the encoding of at most one [str], and one encoded
    text occurs in another exactly when the [str] occurs in the other, so
    the substring test works on the bytes. *)

(** The code points of a UTF-8 text.  A byte that starts no well-formed
    sequence stands for itself, apart from the code points, as
    [1114112 + byte]; no such byte occurs in the encoding of a [str]. *)
Definition is_continuation (n : N) : bool := ((128 <=? n) && (n <? 192))%N.

Definition stray (n : N) : N := (1114112 + n)%N.

Fixpoint decode (s : string) : list N :=
  match s with
  | EmptyString => []
  | String b0 s1 =>
      let n0 := N_of_ascii b0 in
      if (n0 <? 128)%N then n0 :: decode s1
      else
        match s1 with
        | String b1 s2 =>
            let n1 := N_of_ascii b1 in
            let c2 := ((n0 - 192) * 64 + (n1 - 128))%N in
            if ((192 <=? n0) && (n0 <? 224) && is_continuation n1
                && (128 <=? c2))%N
            then c2 :: decode s2
            else
              match s2 with
              | String b2 s3 =>
                  let n2 := N_of_ascii b2 in
                  let c3 := ((n0 - 224) * 4096 + (n1 - 128) * 64
                             + (n2 - 128))%N in
                  if ((224 <=? n0) && (n0 <? 240) && is_continuation n1
                      && is_continuation n2 && (2048 <=? c3)
                      && negb ((55296 <=? c3) && (c3 <? 57344)))%N
                  then c3 :: decode s3
                  else
                    match s3 with
                    | String b3 s4 =>
                        let n3 := N_of_ascii b3 in
                        let c4 := ((n0 - 240) * 262144 + (n1 - 128) * 4096
                                   + (n2 - 128) * 64 + (n3 - 128))%N in
                        if ((240 <=? n0) && (n0 <? 248) && is_continuation n1
                            && is_continuation n2 && is_continuation n3
                            && (65536 <=? c4) && (c4 <? 1114112))%N
                        then c4 :: decode s4
                        else stray n0 :: decode s1
                    | EmptyString => stray n0 :: decode s1
                    end
              | EmptyString => stray n0 :: decode s1
              end
        | EmptyString => [stray n0]
        end
  end.

Definition byte (n : N) : string := String (ascii_of_N n) EmptyString.

Definition encode_point (c : N) : string :=
  (if c <? 128 then byte c
   else if c <? 2048 then byte (192 + c / 64) ++ byte (128 + c mod 64)
   else if c <? 65536
        then byte (224 + c / 4096) ++ byte (128 + (c / 64) mod 64)
             ++ byte (128 + c mod 64)
   else if c <? 1114112
        then byte (240 + c / 262144) ++ byte (128 + (c / 4096) mod 64)
             ++ byte (128 + (c / 64) mod 64) ++ byte (128 + c mod 64)
   else byte (c - 1114112))%N.

Fixpoint encode (cs : list N) : string :=
  match cs with
  | [] => EmptyString
  | c :: cs' => encode_point c ++ encode cs'
  end.

(** A case table: the entry [(first, last, step, shift)] sends every
    [step]-th code point from [first] to [last] to itself plus [shift]; a
    special entry sends one code point to several. *)
Definition in_entry (c : N) (e : N * N * N * Z) : bool :=
  let '(first, last, step, _) := e in
  if (first <=? c)%N
  then if (c <=? last)%N then ((c - first) mod step =? 0)%N else false
  else false.

Definition convert_point (entries : list (N * N * N * Z))
    (specials : list (N * list N)) (c : N) : list N :=
  match find (fun e => (fst e =? c)%N) specials with
  | Some (_, cs) => cs
  | None =>
      match find (in_entry c) entries with
      | Some (_, _, _, shift) => [Z.to_N (Z.of_N c + shift)]
      | None => [c]
      end
  end.

Definition in_ranges (ranges : list (N * N)) (c : N) : bool :=
  existsb (fun r => if (fst r <=? c)%N then (c <=? snd r)%N else false)
          ranges.

(** Lowercase mappings. *)
Definition lower_entries : list (N * N * N * Z) := [
  (65, 90, 1, 32%Z); (192, 214, 1, 32%Z); (216, 222, 1, 32%Z);
  (256, 302, 2, 1%Z); (306, 310, 2, 1%Z); (313, 327, 2, 1%Z);
  (330, 374, 2, 1%Z); (376, 376, 1, (-121)%Z); (377, 381, 2, 1%Z);
  (385, 385, 1, 210%Z); (386, 388, 2, 1%Z); (390, 390, 1, 206%Z);
  (391, 391, 1, 1%Z); (393, 394, 1, 205%Z); (395, 395, 1, 1%Z);
  (398, 398, 1, 79%Z); (399, 399, 1, 202%Z); (400, 400, 1, 203%Z);
  (401, 401, 1, 1%Z); (403, 403, 1, 205%Z); (404, 404, 1, 207%Z);
  (406, 406, 1, 211%Z); (407, 407, 1, 209%Z); (408, 408, 1, 1%Z);
  (412, 412, 1, 211%Z); (413, 413, 1, 213%Z); (415, 415, 1, 214%Z);
  (416, 420, 2, 1%Z); (422, 422, 1, 218%Z); (423, 423, 1, 1%Z);
  (425, 425, 1, 218%Z); (428, 428, 1, 1%Z); (430, 430, 1, 218%Z);
  (431, 431, 1, 1%Z); (433, 434, 1, 217%Z); (435, 437, 2, 1%Z);
  (439, 439, 1, 219%Z); (440, 440, 1, 1%Z); (444, 444, 1, 1%Z);
  (452, 452, 1, 2%Z); (453, 453, 1, 1%Z); (455, 455, 1, 2%Z);
  (456, 456, 1, 1%Z); (458, 458, 1, 2%Z); (459, 475, 2, 1%Z);
  (478, 494, 2, 1%Z); (497, 497, 1, 2%Z); (498, 500, 2, 1%Z);
  (502, 502, 1, (-97)%Z); (503, 503, 1, (-56)%Z); (504, 542, 2, 1%Z);
  (544, 544, 1, (-130)%Z); (546, 562, 2, 1%Z); (570, 570, 1, 10795%Z);
  (571, 571, 1, 1%Z); (573, 573, 1, (-163)%Z); (574, 574, 1, 10792%Z);
  (577, 577, 1, 1%Z); (579, 579, 1, (-195)%Z); (580, 580, 1, 69%Z);
  (581, 581, 1, 71%Z); (582, 590, 2, 1%Z); (880, 882, 2, 1%Z);
  (886, 886, 1, 1%Z); (895, 895, 1, 116%Z); (902, 902, 1, 38%Z);
  (904, 906, 1, 37%Z); (908, 908, 1, 64%Z); (910, 911, 1, 63%Z);
  (913, 929, 1, 32%Z); (931, 939, 1, 32%Z); (975, 975, 1, 8%Z);
  (984, 1006, 2, 1%Z); (1012, 1012, 1, (-60)%Z); (1015, 1015, 1, 1%Z);
  (1017, 1017, 1, (-7)%Z); (1018, 1018, 1, 1%Z); (1021, 1023, 1, (-130)%Z);
  (1024, 1039, 1, 80%Z); (1040, 1071, 1, 32%Z); (1120, 1152, 2, 1%Z);
  (1162, 1214, 2, 1%Z); (1216, 1216, 1, 15%Z); (1217, 1229, 2, 1%Z);
  (1232, 1326, 2, 1%Z); (1329, 1366, 1, 48%Z); (4256, 4293, 1, 7264%Z);
  (4295, 4295, 1, 7264%Z); (4301, 4301, 1, 7264%Z);
  (5024, 5103, 1, 38864%Z); (5104, 5109, 1, 8%Z);
  (7312, 7354, 1, (-3008)%Z); (7357, 7359, 1, (-3008)%Z);
  (7680, 7828, 2, 1%Z); (7838, 7838, 1, (-7615)%Z); (7840, 7934, 2, 1%Z);
  (7944, 7951, 1, (-8)%Z); (7960, 7965, 1, (-8)%Z);
  (7976, 7983, 1, (-8)%Z); (7992, 7999, 1, (-8)%Z);
  (8008, 8013, 1, (-8)%Z); (8025, 8031, 2, (-8)%Z);
  (8040, 8047, 1, (-8)%Z); (8072, 8079, 1, (-8)%Z);
  (8088, 8095, 1, (-8)%Z); (8104, 8111, 1, (-8)%Z);
  (8120, 8121, 1, (-8)%Z); (8122, 8123, 1, (-74)%Z);
  (8124, 8124, 1, (-9)%Z); (8136, 8139, 1, (-86)%Z);
  (8140, 8140, 1, (-9)%Z); (8152, 8153, 1, (-8)%Z);
  (8154, 8155, 1, (-100)%Z); (8168, 8169, 1, (-8)%Z);
  (8170, 8171, 1, (-112)%Z); (8172, 8172, 1, (-7)%Z);
  (8184, 8185, 1, (-128)%Z); (8186, 8187, 1, (-126)%Z);
  (8188, 8188, 1, (-9)%Z); (8486, 8486, 1, (-7517)%Z);
  (8490, 8490, 1, (-8383)%Z); (8491, 8491, 1, (-8262)%Z);
  (8498, 8498, 1, 28%Z); (8544, 8559, 1, 16%Z); (8579, 8579, 1, 1%Z);
  (9398, 9423, 1, 26%Z); (11264, 11311, 1, 48%Z); (11360, 11360, 1, 1%Z);
  (11362, 11362, 1, (-10743)%Z); (11363, 11363, 1, (-3814)%Z);
  (11364, 11364, 1, (-10727)%Z); (11367, 11371, 2, 1%Z);
  (11373, 11373, 1, (-10780)%Z); (11374, 11374, 1, (-10749)%Z);
  (11375, 11375, 1, (-10783)%Z); (11376, 11376, 1, (-10782)%Z);
  (11378, 11378, 1, 1%Z); (11381, 11381, 1, 1%Z);
  (11390, 11391, 1, (-10815)%Z); (11392, 11490, 2, 1%Z);
  (11499, 11501, 2, 1%Z); (11506, 11506, 1, 1%Z); (42560, 42604, 2, 1%Z);
  (42624, 42650, 2, 1%Z); (42786, 42798, 2, 1%Z); (42802, 42862, 2, 1%Z);
  (42873, 42875, 2, 1%Z); (42877, 42877, 1, (-35332)%Z);
  (42878, 42886, 2, 1%Z); (42891, 42891, 1, 1%Z);
  (42893, 42893, 1, (-42280)%Z); (42896, 42898, 2, 1%Z);
  (42902, 42920, 2, 1%Z); (42922, 42922, 1, (-42308)%Z);
  (42923, 42923, 1, (-42319)%Z); (42924, 42924, 1, (-42315)%Z);
  (42925, 42925, 1, (-42305)%Z); (42926, 42926, 1, (-42308)%Z);
  (42928, 42928, 1, (-42258)%Z); (42929, 42929, 1, (-42282)%Z);
  (42930, 42930, 1, (-42261)%Z); (42931, 42931, 1, 928%Z);
  (42932, 42946, 2, 1%Z); (42948, 42948, 1, (-48)%Z);
  (42949, 42949, 1, (-42307)%Z); (42950, 42950, 1, (-35384)%Z);
  (42951, 42953, 2, 1%Z); (42960, 42960, 1, 1%Z); (42966, 42968, 2, 1%Z);
  (42997, 42997, 1, 1%Z); (65313, 65338, 1, 32%Z); (66560, 66599, 1, 40%Z);
  (66736, 66771, 1, 40%Z); (66928, 66964, 2, 39%Z);
  (66929, 66937, 2, 39%Z); (66941, 66953, 2, 39%Z);
  (66957, 66961, 2, 39%Z); (66965, 66965, 1, 39%Z);
  (68736, 68786, 1, 64%Z); (71840, 71871, 1, 32%Z);
  (93760, 93791, 1, 32%Z); (125184, 125217, 1, 34%Z)
]%N.

Definition lower_specials : list (N * list N) := [
  (304, [105; 775])
]%N.

(** Uppercase mappings. *)
Definition upper_entries : list (N * N * N * Z) := [
  (97, 122, 1, (-32)%Z); (181, 181, 1, 743%Z); (224, 246, 1, (-32)%Z);
  (248, 254, 1, (-32)%Z); (255, 255, 1, 121%Z); (257, 303, 2, (-1)%Z);
  (305, 305, 1, (-232)%Z); (307, 311, 2, (-1)%Z); (314, 328, 2, (-1)%Z);
  (331, 375, 2, (-1)%Z); (378, 382, 2, (-1)%Z); (383, 383, 1, (-300)%Z);
  (384, 384, 1, 195%Z); (387, 389, 2, (-1)%Z); (392, 392, 1, (-1)%Z);
  (396, 396, 1, (-1)%Z); (402, 402, 1, (-1)%Z); (405, 405, 1, 97%Z);
  (409, 409, 1, (-1)%Z); (410, 410, 1, 163%Z); (414, 414, 1, 130%Z);
  (417, 421, 2, (-1)%Z); (424, 424, 1, (-1)%Z); (429, 429, 1, (-1)%Z);
  (432, 432, 1, (-1)%Z); (436, 438, 2, (-1)%Z); (441, 441, 1, (-1)%Z);
  (445, 445, 1, (-1)%Z); (447, 447, 1, 56%Z); (453, 453, 1, (-1)%Z);
  (454, 454, 1, (-2)%Z); (456, 456, 1, (-1)%Z); (457, 457, 1, (-2)%Z);
  (459, 459, 1, (-1)%Z); (460, 460, 1, (-2)%Z); (462, 476, 2, (-1)%Z);
  (477, 477, 1, (-79)%Z); (479, 495, 2, (-1)%Z); (498, 498, 1, (-1)%Z);
  (499, 499, 1, (-2)%Z); (501, 501, 1, (-1)%Z); (505, 543, 2, (-1)%Z);
  (547, 563, 2, (-1)%Z); (572, 572, 1, (-1)%Z); (575, 576, 1, 10815%Z);
  (578, 578, 1, (-1)%Z); (583, 591, 2, (-1)%Z); (592, 592, 1, 10783%Z);
  (593, 593, 1, 10780%Z); (594, 594, 1, 10782%Z); (595, 595, 1, (-210)%Z);
  (596, 596, 1, (-206)%Z); (598, 599, 1, (-205)%Z);
  (601, 601, 1, (-202)%Z); (603, 603, 1, (-203)%Z); (604, 604, 1, 42319%Z);
  (608, 608, 1, (-205)%Z); (609, 609, 1, 42315%Z); (611, 611, 1, (-207)%Z);
  (613, 613, 1, 42280%Z); (614, 614, 1, 42308%Z); (616, 616, 1, (-209)%Z);
  (617, 617, 1, (-211)%Z); (618, 618, 1, 42308%Z); (619, 619, 1, 10743%Z);
  (620, 620, 1, 42305%Z); (623, 623, 1, (-211)%Z); (625, 625, 1, 10749%Z);
  (626, 626, 1, (-213)%Z); (629, 629, 1, (-214)%Z); (637, 637, 1, 10727%Z);
  (640, 640, 1, (-218)%Z); (642, 642, 1, 42307%Z); (643, 643, 1, (-218)%Z);
  (647, 647, 1, 42282%Z); (648, 648, 1, (-218)%Z); (649, 649, 1, (-69)%Z);
  (650, 651, 1, (-217)%Z); (652, 652, 1, (-71)%Z); (658, 658, 1, (-219)%Z);
  (669, 669, 1, 42261%Z); (670, 670, 1, 42258%Z); (837, 837, 1, 84%Z);
  (881, 883, 2, (-1)%Z); (887, 887, 1, (-1)%Z); (891, 893, 1, 130%Z);
  (940, 940, 1, (-38)%Z); (941, 943, 1, (-37)%Z); (945, 961, 1, (-32)%Z);
  (962, 962, 1, (-31)%Z); (963, 971, 1, (-32)%Z); (972, 972, 1, (-64)%Z);
  (973, 974, 1, (-63)%Z); (976, 976, 1, (-62)%Z); (977, 977, 1, (-57)%Z);
  (981, 981, 1, (-47)%Z); (982, 982, 1, (-54)%Z); (983, 983, 1, (-8)%Z);
  (985, 1007, 2, (-1)%Z); (1008, 1008, 1, (-86)%Z);
  (1009, 1009, 1, (-80)%Z); (1010, 1010, 1, 7%Z);
  (1011, 1011, 1, (-116)%Z); (1013, 1013, 1, (-96)%Z);
  (1016, 1016, 1, (-1)%Z); (1019, 1019, 1, (-1)%Z);
  (1072, 1103, 1, (-32)%Z); (1104, 1119, 1, (-80)%Z);
  (1121, 1153, 2, (-1)%Z); (1163, 1215, 2, (-1)%Z);
  (1218, 1230, 2, (-1)%Z); (1231, 1231, 1, (-15)%Z);
  (1233, 1327, 2, (-1)%Z); (1377, 1414, 1, (-48)%Z);
  (4304, 4346, 1, 3008%Z); (4349, 4351, 1, 3008%Z);
  (5112, 5117, 1, (-8)%Z); (7296, 7296, 1, (-6254)%Z);
  (7297, 7297, 1, (-6253)%Z); (7298, 7298, 1, (-6244)%Z);
  (7299, 7300, 1, (-6242)%Z); (7301, 7301, 1, (-6243)%Z);
  (7302, 7302, 1, (-6236)%Z); (7303, 7303, 1, (-6181)%Z);
  (7304, 7304, 1, 35266%Z); (7545, 7545, 1, 35332%Z);
  (7549, 7549, 1, 3814%Z); (7566, 7566, 1, 35384%Z);
  (7681, 7829, 2, (-1)%Z); (7835, 7835, 1, (-59)%Z);
  (7841, 7935, 2, (-1)%Z); (7936, 7943, 1, 8%Z); (7952, 7957, 1, 8%Z);
  (7968, 7975, 1, 8%Z); (7984, 7991, 1, 8%Z); (8000, 8005, 1, 8%Z);
  (8017, 8023, 2, 8%Z); (8032, 8039, 1, 8%Z); (8048, 8049, 1, 74%Z);
  (8050, 8053, 1, 86%Z); (8054, 8055, 1, 100%Z); (8056, 8057, 1, 128%Z);
  (8058, 8059, 1, 112%Z); (8060, 8061, 1, 126%Z); (8112, 8113, 1, 8%Z);
  (8126, 8126, 1, (-7205)%Z); (8144, 8145, 1, 8%Z); (8160, 8161, 1, 8%Z);
  (8165, 8165, 1, 7%Z); (8526, 8526, 1, (-28)%Z); (8560, 8575, 1, (-16)%Z);
  (8580, 8580, 1, (-1)%Z); (9424, 9449, 1, (-26)%Z);
  (11312, 11359, 1, (-48)%Z); (11361, 11361, 1, (-1)%Z);
  (11365, 11365, 1, (-10795)%Z); (11366, 11366, 1, (-10792)%Z);
  (11368, 11372, 2, (-1)%Z); (11379, 11379, 1, (-1)%Z);
  (11382, 11382, 1, (-1)%Z); (11393, 11491, 2, (-1)%Z);
  (11500, 11502, 2, (-1)%Z); (11507, 11507, 1, (-1)%Z);
  (11520, 11557, 1, (-7264)%Z); (11559, 11559, 1, (-7264)%Z);
  (11565, 11565, 1, (-7264)%Z); (42561, 42605, 2, (-1)%Z);
  (42625, 42651, 2, (-1)%Z); (42787, 42799, 2, (-1)%Z);
  (42803, 42863, 2, (-1)%Z); (42874, 42876, 2, (-1)%Z);
  (42879, 42887, 2, (-1)%Z); (42892, 42892, 1, (-1)%Z);
  (42897, 42899, 2, (-1)%Z); (42900, 42900, 1, 48%Z);
  (42903, 42921, 2, (-1)%Z); (42933, 42947, 2, (-1)%Z);
  (42952, 42954, 2, (-1)%Z); (42961, 42961, 1, (-1)%Z);
  (42967, 42969, 2, (-1)%Z); (42998, 42998, 1, (-1)%Z);
  (43859, 43859, 1, (-928)%Z); (43888, 43967, 1, (-38864)%Z);
  (65345, 65370, 1, (-32)%Z); (66600, 66639, 1, (-40)%Z);
  (66776, 66811, 1, (-40)%Z); (66967, 67003, 2, (-39)%Z);
  (66968, 66976, 2, (-39)%Z); (66980, 66992, 2, (-39)%Z);
  (66996, 67000, 2, (-39)%Z); (67004, 67004, 1, (-39)%Z);
  (68800, 68850, 1, (-64)%Z); (71872, 71903, 1, (-32)%Z);
  (93792, 93823, 1, (-32)%Z); (125218, 125251, 1, (-34)%Z)
]%N.

Definition upper_specials : list (N * list N) := [
  (223, [83; 83]); (329, [700; 78]); (496, [74; 780]);
  (912, [921; 776; 769]); (944, [933; 776; 769]); (1415, [1333; 1362]);
  (7830, [72; 817]); (7831, [84; 776]); (7832, [87; 778]);
  (7833, [89; 778]); (7834, [65; 702]); (8016, [933; 787]);
  (8018, [933; 787; 768]); (8020, [933; 787; 769]);
  (8022, [933; 787; 834]); (8064, [7944; 921]); (8065, [7945; 921]);
  (8066, [7946; 921]); (8067, [7947; 921]); (8068, [7948; 921]);
  (8069, [7949; 921]); (8070, [7950; 921]); (8071, [7951; 921]);
  (8072, [7944; 921]); (8073, [7945; 921]); (8074, [7946; 921]);
  (8075, [7947; 921]); (8076, [7948; 921]); (8077, [7949; 921]);
  (8078, [7950; 921]); (8079, [7951; 921]); (8080, [7976; 921]);
  (8081, [7977; 921]); (8082, [7978; 921]); (8083, [7979; 921]);
  (8084, [7980; 921]); (8085, [7981; 921]); (8086, [7982; 921]);
  (8087, [7983; 921]); (8088, [7976; 921]); (8089, [7977; 921]);
  (8090, [7978; 921]); (8091, [7979; 921]); (8092, [7980; 921]);
  (8093, [7981; 921]); (8094, [7982; 921]); (8095, [7983; 921]);
  (8096, [8040; 921]); (8097, [8041; 921]); (8098, [8042; 921]);
  (8099, [8043; 921]); (8100, [8044; 921]); (8101, [8045; 921]);
  (8102, [8046; 921]); (8103, [8047; 921]); (8104, [8040; 921]);
  (8105, [8041; 921]); (8106, [8042; 921]); (8107, [8043; 921]);
  (8108, [8044; 921]); (8109, [8045; 921]); (8110, [8046; 921]);
  (8111, [8047; 921]); (8114, [8122; 921]); (8115, [913; 921]);
  (8116, [902; 921]); (8118, [913; 834]); (8119, [913; 834; 921]);
  (8124, [913; 921]); (8130, [8138; 921]); (8131, [919; 921]);
  (8132, [905; 921]); (8134, [919; 834]); (8135, [919; 834; 921]);
  (8140, [919; 921]); (8146, [921; 776; 768]); (8147, [921; 776; 769]);
  (8150, [921; 834]); (8151, [921; 776; 834]); (8162, [933; 776; 768]);
  (8163, [933; 776; 769]); (8164, [929; 787]); (8166, [933; 834]);
  (8167, [933; 776; 834]); (8178, [8186; 921]); (8179, [937; 921]);
  (8180, [911; 921]); (8182, [937; 834]); (8183, [937; 834; 921]);
  (8188, [937; 921]); (64256, [70; 70]); (64257, [70; 73]);
  (64258, [70; 76]); (64259, [70; 70; 73]); (64260, [70; 70; 76]);
  (64261, [83; 84]); (64262, [83; 84]); (64275, [1348; 1350]);
  (64276, [1348; 1333]); (64277, [1348; 1339]); (64278, [1358; 1350]);
  (64279, [1348; 1341])
]%N.

(** The property Cased. *)
Definition cased_ranges : list (N * N) := [
  (65, 90); (97, 122); (170, 170); (181, 181); (186, 186); (192, 214);
  (216, 246); (248, 442); (444, 447); (452, 659); (661, 696); (704, 705);
  (736, 740); (837, 837); (880, 883); (886, 887); (890, 893); (895, 895);
  (902, 902); (904, 906); (908, 908); (910, 929); (931, 1013);
  (1015, 1153); (1162, 1327); (1329, 1366); (1376, 1416); (4256, 4293);
  (4295, 4295); (4301, 4301); (4304, 4346); (4349, 4351); (5024, 5109);
  (5112, 5117); (7296, 7304); (7312, 7354); (7357, 7359); (7424, 7615);
  (7680, 7957); (7960, 7965); (7968, 8005); (8008, 8013); (8016, 8023);
  (8025, 8025); (8027, 8027); (8029, 8029); (8031, 8061); (8064, 8116);
  (8118, 8124); (8126, 8126); (8130, 8132); (8134, 8140); (8144, 8147);
  (8150, 8155); (8160, 8172); (8178, 8180); (8182, 8188); (8305, 8305);
  (8319, 8319); (8336, 8348); (8450, 8450); (8455, 8455); (8458, 8467);
  (8469, 8469); (8473, 8477); (8484, 8484); (8486, 8486); (8488, 8488);
  (8490, 8493); (8495, 8500); (8505, 8505); (8508, 8511); (8517, 8521);
  (8526, 8526); (8544, 8575); (8579, 8580); (9398, 9449); (11264, 11492);
  (11499, 11502); (11506, 11507); (11520, 11557); (11559, 11559);
  (11565, 11565); (42560, 42605); (42624, 42653); (42786, 42887);
  (42891, 42894); (42896, 42954); (42960, 42961); (42963, 42963);
  (42965, 42969); (42997, 42998); (43000, 43002); (43824, 43866);
  (43868, 43880); (43888, 43967); (64256, 64262); (64275, 64279);
  (65313, 65338); (65345, 65370); (66560, 66639); (66736, 66771);
  (66776, 66811); (66928, 66938); (66940, 66954); (66956, 66962);
  (66964, 66965); (66967, 66977); (66979, 66993); (66995, 67001);
  (67003, 67004); (67456, 67456); (67459, 67461); (67463, 67504);
  (67506, 67514); (68736, 68786); (68800, 68850); (71840, 71903);
  (93760, 93823); (119808, 119892); (119894, 119964); (119966, 119967);
  (119970, 119970); (119973, 119974); (119977, 119980); (119982, 119993);
  (119995, 119995); (119997, 120003); (120005, 120069); (120071, 120074);
  (120077, 120084); (120086, 120092); (120094, 120121); (120123, 120126);
  (120128, 120132); (120134, 120134); (120138, 120144); (120146, 120485);
  (120488, 120512); (120514, 120538); (120540, 120570); (120572, 120596);
  (120598, 120628); (120630, 120654); (120656, 120686); (120688, 120712);
  (120714, 120744); (120746, 120770); (120772, 120779); (122624, 122633);
  (122635, 122654); (125184, 125251); (127280, 127305); (127312, 127337);
  (127344, 127369)
]%N.

(** The property Case_Ignorable. *)
Definition case_ignorable_ranges : list (N * N) := [
  (39, 39); (46, 46); (58, 58); (94, 94); (96, 96); (168, 168); (173, 173);
  (175, 175); (180, 180); (183, 184); (688, 879); (884, 885); (890, 890);
  (900, 901); (903, 903); (1155, 1161); (1369, 1369); (1375, 1375);
  (1425, 1469); (1471, 1471); (1473, 1474); (1476, 1477); (1479, 1479);
  (1524, 1524); (1536, 1541); (1552, 1562); (1564, 1564); (1600, 1600);
  (1611, 1631); (1648, 1648); (1750, 1757); (1759, 1768); (1770, 1773);
  (1807, 1807); (1809, 1809); (1840, 1866); (1958, 1968); (2027, 2037);
  (2042, 2042); (2045, 2045); (2070, 2093); (2137, 2139); (2184, 2184);
  (2192, 2193); (2200, 2207); (2249, 2306); (2362, 2362); (2364, 2364);
  (2369, 2376); (2381, 2381); (2385, 2391); (2402, 2403); (2417, 2417);
  (2433, 2433); (2492, 2492); (2497, 2500); (2509, 2509); (2530, 2531);
  (2558, 2558); (2561, 2562); (2620, 2620); (2625, 2626); (2631, 2632);
  (2635, 2637); (2641, 2641); (2672, 2673); (2677, 2677); (2689, 2690);
  (2748, 2748); (2753, 2757); (2759, 2760); (2765, 2765); (2786, 2787);
  (2810, 2815); (2817, 2817); (2876, 2876); (2879, 2879); (2881, 2884);
  (2893, 2893); (2901, 2902); (2914, 2915); (2946, 2946); (3008, 3008);
  (3021, 3021); (3072, 3072); (3076, 3076); (3132, 3132); (3134, 3136);
  (3142, 3144); (3146, 3149); (3157, 3158); (3170, 3171); (3201, 3201);
  (3260, 3260); (3263, 3263); (3270, 3270); (3276, 3277); (3298, 3299);
  (3328, 3329); (3387, 3388); (3393, 3396); (3405, 3405); (3426, 3427);
  (3457, 3457); (3530, 3530); (3538, 3540); (3542, 3542); (3633, 3633);
  (3636, 3642); (3654, 3662); (3761, 3761); (3764, 3772); (3782, 3782);
  (3784, 3789); (3864, 3865); (3893, 3893); (3895, 3895); (3897, 3897);
  (3953, 3966); (3968, 3972); (3974, 3975); (3981, 3991); (3993, 4028);
  (4038, 4038); (4141, 4144); (4146, 4151); (4153, 4154); (4157, 4158);
  (4184, 4185); (4190, 4192); (4209, 4212); (4226, 4226); (4229, 4230);
  (4237, 4237); (4253, 4253); (4348, 4348); (4957, 4959); (5906, 5908);
  (5938, 5939); (5970, 5971); (6002, 6003); (6068, 6069); (6071, 6077);
  (6086, 6086); (6089, 6099); (6103, 6103); (6109, 6109); (6155, 6159);
  (6211, 6211); (6277, 6278); (6313, 6313); (6432, 6434); (6439, 6440);
  (6450, 6450); (6457, 6459); (6679, 6680); (6683, 6683); (6742, 6742);
  (6744, 6750); (6752, 6752); (6754, 6754); (6757, 6764); (6771, 6780);
  (6783, 6783); (6823, 6823); (6832, 6862); (6912, 6915); (6964, 6964);
  (6966, 6970); (6972, 6972); (6978, 6978); (7019, 7027); (7040, 7041);
  (7074, 7077); (7080, 7081); (7083, 7085); (7142, 7142); (7144, 7145);
  (7149, 7149); (7151, 7153); (7212, 7219); (7222, 7223); (7288, 7293);
  (7376, 7378); (7380, 7392); (7394, 7400); (7405, 7405); (7412, 7412);
  (7416, 7417); (7468, 7530); (7544, 7544); (7579, 7679); (8125, 8125);
  (8127, 8129); (8141, 8143); (8157, 8159); (8173, 8175); (8189, 8190);
  (8203, 8207); (8216, 8217); (8228, 8228); (8231, 8231); (8234, 8238);
  (8288, 8292); (8294, 8303); (8305, 8305); (8319, 8319); (8336, 8348);
  (8400, 8432); (11388, 11389); (11503, 11505); (11631, 11631);
  (11647, 11647); (11744, 11775); (11823, 11823); (12293, 12293);
  (12330, 12333); (12337, 12341); (12347, 12347); (12441, 12446);
  (12540, 12542); (40981, 40981); (42232, 42237); (42508, 42508);
  (42607, 42610); (42612, 42621); (42623, 42623); (42652, 42655);
  (42736, 42737); (42752, 42785); (42864, 42864); (42888, 42890);
  (42994, 42996); (43000, 43001); (43010, 43010); (43014, 43014);
  (43019, 43019); (43045, 43046); (43052, 43052); (43204, 43205);
  (43232, 43249); (43263, 43263); (43302, 43309); (43335, 43345);
  (43392, 43394); (43443, 43443); (43446, 43449); (43452, 43453);
  (43471, 43471); (43493, 43494); (43561, 43566); (43569, 43570);
  (43573, 43574); (43587, 43587); (43596, 43596); (43632, 43632);
  (43644, 43644); (43696, 43696); (43698, 43700); (43703, 43704);
  (43710, 43711); (43713, 43713); (43741, 43741); (43756, 43757);
  (43763, 43764); (43766, 43766); (43867, 43871); (43881, 43883);
  (44005, 44005); (44008, 44008); (44013, 44013); (64286, 64286);
  (64434, 64450); (65024, 65039); (65043, 65043); (65056, 65071);
  (65106, 65106); (65109, 65109); (65279, 65279); (65287, 65287);
  (65294, 65294); (65306, 65306); (65342, 65342); (65344, 65344);
  (65392, 65392); (65438, 65439); (65507, 65507); (65529, 65531);
  (66045, 66045); (66272, 66272); (66422, 66426); (67456, 67461);
  (67463, 67504); (67506, 67514); (68097, 68099); (68101, 68102);
  (68108, 68111); (68152, 68154); (68159, 68159); (68325, 68326);
  (68900, 68903); (69291, 69292); (69446, 69456); (69506, 69509);
  (69633, 69633); (69688, 69702); (69744, 69744); (69747, 69748);
  (69759, 69761); (69811, 69814); (69817, 69818); (69821, 69821);
  (69826, 69826); (69837, 69837); (69888, 69890); (69927, 69931);
  (69933, 69940); (70003, 70003); (70016, 70017); (70070, 70078);
  (70089, 70092); (70095, 70095); (70191, 70193); (70196, 70196);
  (70198, 70199); (70206, 70206); (70367, 70367); (70371, 70378);
  (70400, 70401); (70459, 70460); (70464, 70464); (70502, 70508);
  (70512, 70516); (70712, 70719); (70722, 70724); (70726, 70726);
  (70750, 70750); (70835, 70840); (70842, 70842); (70847, 70848);
  (70850, 70851); (71090, 71093); (71100, 71101); (71103, 71104);
  (71132, 71133); (71219, 71226); (71229, 71229); (71231, 71232);
  (71339, 71339); (71341, 71341); (71344, 71349); (71351, 71351);
  (71453, 71455); (71458, 71461); (71463, 71467); (71727, 71735);
  (71737, 71738); (71995, 71996); (71998, 71998); (72003, 72003);
  (72148, 72151); (72154, 72155); (72160, 72160); (72193, 72202);
  (72243, 72248); (72251, 72254); (72263, 72263); (72273, 72278);
  (72281, 72283); (72330, 72342); (72344, 72345); (72752, 72758);
  (72760, 72765); (72767, 72767); (72850, 72871); (72874, 72880);
  (72882, 72883); (72885, 72886); (73009, 73014); (73018, 73018);
  (73020, 73021); (73023, 73029); (73031, 73031); (73104, 73105);
  (73109, 73109); (73111, 73111); (73459, 73460); (78896, 78904);
  (92912, 92916); (92976, 92982); (92992, 92995); (94031, 94031);
  (94095, 94111); (94176, 94177); (94179, 94180); (110576, 110579);
  (110581, 110587); (110589, 110590); (113821, 113822); (113824, 113827);
  (118528, 118573); (118576, 118598); (119143, 119145); (119155, 119170);
  (119173, 119179); (119210, 119213); (119362, 119364); (121344, 121398);
  (121403, 121452); (121461, 121461); (121476, 121476); (121499, 121503);
  (121505, 121519); (122880, 122886); (122888, 122904); (122907, 122913);
  (122915, 122916); (122918, 122922); (123184, 123197); (123566, 123566);
  (123628, 123631); (125136, 125142); (125252, 125259); (127995, 127999);
  (917505, 917505); (917536, 917631); (917760, 917999)
]%N.

Definition lower_point : N -> list N :=
  convert_point lower_entries lower_specials.

Definition upper_point : N -> list N :=
  convert_point upper_entries upper_specials.

Definition is_cased : N -> bool := in_ranges cased_ranges.

Definition is_case_ignorable : N -> bool := in_ranges case_ignorable_ranges.

Fixpoint skip_case_ignorable (cs : list N) : list N :=
  match cs with
  | [] => []
  | c :: cs' => if is_case_ignorable c then skip_case_ignorable cs' else cs
  end.

(** A capital sigma closes a word when a cased letter precedes it and none
    follows, case-ignorable characters apart; [before] lists the preceding
    code points from the nearest on. *)
Definition final_sigma (before after : list N) : bool :=
  match skip_case_ignorable before with
  | c :: _ =>
      is_cased c &&
      match skip_case_ignorable after with
      | [] => true
      | d :: _ => negb (is_cased d)
      end
  | [] => false
  end.

Fixpoint lower_points (before cs : list N) : list N :=
  match cs with
  | [] => []
  | c :: after =>
      ((if (c =? 931)%N
        then [if final_sigma before after then 962%N else 963%N]
        else lower_point c)
       ++ lower_points (c :: before) after)%list
  end.

(** [s.lower()] *)
Definition lower (s : string) : string :=
  encode (lower_points [] (decode s)).

(** [s.upper()] *)
Definition upper (s : string) : string :=
  encode (flat_map upper_point (decode s)).

(** [needle in hay]: [needle] occurs at some offset of [hay]. *)
Fixpoint is_substring (needle hay : string) : bool :=
  String.prefix needle hay ||
  match hay with
  | EmptyString => false
  | String _ hay' => is_substring needle hay'
  end.

(** ** [find_station] *)

(** The record appended for [station] of [city] (the same dictionary
    literal in both branches of the source). *)
Definition emit (city : City.t) (station : Station.t) : Match.t :=
  Match.mk (City.name city) (City.id city)
           (Station.name station) (Station.id station)
           (get (Station.fullname station) EmptyString)
           (get (Station.address station) "N/A").

(** Body of the station loop under a matching city. *)
Definition station_step_all (city : City.t)
    (results : list Match.t) (station : Station.t) : list Match.t :=
  results ++ [emit city station].

(** The test on one station under a city that did not match. *)
Definition station_matches (search_lower : string) (station : Station.t) : bool :=
  is_substring search_lower (lower (Station.name station)) ||
  is_substring search_lower (lower (get (Station.fullname station) EmptyString)).

(** Body of the station loop under a city that did not match. *)
Definition station_step_test (search_lower : string) (city : City.t)
    (results : list Match.t) (station : Station.t) : list Match.t :=
  if station_matches search_lower station
  then results ++ [emit city station]
  else results.

(** Body of [for city in country.get('cities', [])]. *)
Definition city_step (search_lower : string)
    (results : list Match.t) (city : City.t) : list Match.t :=
  if is_substring search_lower (lower (City.name city))
  then fold_left (station_step_all city) (get (City.stations city) []) results
  else fold_left (station_step_test search_lower city)
                 (get (City.stations city) []) results.

(** Body of [for country in locations]. *)
Definition country_step (search_lower : string)
    (results : list Match.t) (country : Country.t) : list Match.t :=
  fold_left (city_step search_lower) (get (Country.cities country) []) results.

Definition find_station (api : Upstream) (search_term : string)
    : result (list Match.t) :=
  locations <- get_all_locations api ;;
  let search_lower := lower search_term in
  Ok (fold_left (country_step search_lower) locations []).

(** ** Presentation layer: colours, numbers and text *)

Module Colors.
(** ['\033'] *)
Definition ESC : string := String (ascii_of_N 27) EmptyString.
Definition RED : string := ESC ++ "[91m".
Definition GREEN : string := ESC ++ "[92m".
Definition YELLOW : string := ESC ++ "[93m".
Definition BLUE : string := ESC ++ "[94m".
Definition MAGENTA : string := ESC ++ "[95m".
Definition CYAN : string := ESC ++ "[96m".
Definition WHITE : string := ESC ++ "[97m".
Definition BOLD : string := ESC ++ "[1m".
Definition RESET : string := ESC ++ "[0m".
End Colors.

(** ['\n'] *)
Definition NL : string := String (ascii_of_N 10) EmptyString.

(** [str(n)] for an integer. *)
Definition str_int (n : Z) : string :=
  NilEmpty.string_of_int (Z.to_int n).

(** Python's [float] is IEEE 754 binary64. *)
Definition float : Type := spec_float.
Definition prec : Z := 53.
Definition emax : Z := 1024.

(** The integer [n] as an exact ratio [n / 1] handed to the division. *)
Definition float_of_int (n : Z) : float :=
  match n with
  | Z0 => S754_zero false
  | Zpos p => S754_finite false p 0
  | Zneg p => S754_finite true p 0
  end.

(** [a / b] on integers: the quotient correctly rounded to binary64;
    a zero divisor and a quotient out of range raise. *)
Definition truediv (a b : Z) : result float :=
  if b =? 0 then Raise ZeroDivisionError
  else match SFdiv prec emax (float_of_int a) (float_of_int b) with
       | S754_infinity _ => Raise OverflowError
       | q => Ok q
       end.

(** [n / d] rounded to the nearest integer, ties to even ([d > 0]). *)
Definition round_half_even (n d : Z) : Z :=
  let q := n / d in
  let r := n mod d in
  match 2 * r ?= d with
  | Lt => q
  | Gt => q + 1
  | Eq => if Z.even q then q else q + 1
  end.

(** Tenths of [m * 2^e], correctly rounded. *)
Definition tenths (m : positive) (e : Z) : Z :=
  match e with
  | Zneg p => round_half_even (10 * Zpos m) (2 ^ Zpos p)
  | _ => 10 * Zpos m * 2 ^ e
  end.

Definition sign_str (s : bool) : string :=
  if s then "-" else EmptyString.

(** The format specification [:.1f]. *)
Definition format_1f (x : float) : string :=
  match x with
  | S754_zero s => sign_str s ++ "0.0"
  | S754_infinity s => sign_str s ++ "inf"
  | S754_nan => "nan"
  | S754_finite s m e =>
      let t := tenths m e in
      sign_str s ++ str_int (t / 10) ++ "." ++ str_int (t mod 10)
  end.

(** [sum(xs)] and [max(xs)] on integers; [max] of no element raises. *)
Definition py_sum (xs : list Z) : Z := fold_left Z.add xs 0.

Definition py_max (xs : list Z) : result Z :=
  match xs with
  | [] => Raise ValueError
  | x :: xs' => Ok (fold_left Z.max xs' x)
  end.

(** Truth value of a list: [if routes] / [if not routes]. *)
Definition truthy {A : Type} (xs : list A) : bool :=
  match xs with
  | [] => false
  | _ :: _ => true
  end.

(** ** [print_delays_summary]

    The function prints and returns nothing; the model returns what it
    printed, one string per call of [print]. *)

Record stats : Type := mk_stats {
  total : Z;
  on_time : Z;
  delayed : Z;
  avg_delay : float;
  max_delay : Z
}.

(** [sum(1 for r in routes if r['delay'] == 0)] *)
Definition count_on_time (routes : list Summary.t) : Z :=
  py_sum (map (fun _ => 1) (filter (fun r => Summary.delay r =? 0) routes)).

(** The five assignments after the guard. *)
Definition summary_stats (routes : list Summary.t) : result stats :=
  let total := Z.of_nat (List.length routes) in
  let on_time := count_on_time routes in
  let delayed := total - on_time in
  avg_delay <- (if total >? 0
                then truediv (py_sum (map Summary.delay routes)) total
                else Ok (float_of_int 0)) ;;
  max_delay <- (if truthy routes
                then py_max (map Summary.delay routes)
                else Ok 0) ;;
  Ok (mk_stats total on_time delayed avg_delay max_delay).

(** The seven calls of [print] that follow. *)
Definition render_summary (s : stats) : list string :=
  [ NL ++ Colors.BOLD ++ Colors.CYAN ++ "=== DELAY SUMMARY ===" ++ Colors.RESET;
    "Total routes: " ++ str_int (total s);
    "On time: " ++ Colors.GREEN ++ str_int (on_time s) ++ Colors.RESET;
    "Delayed: " ++ Colors.RED ++ str_int (delayed s) ++ Colors.RESET;
    "Average delay: " ++ Colors.YELLOW ++ format_1f (avg_delay s)
      ++ " minutes" ++ Colors.RESET;
    "Maximum delay: " ++ Colors.RED ++ str_int (max_delay s)
      ++ " minutes" ++ Colors.RESET;
    EmptyString ].

Definition no_routes_notice : list string :=
  [ Colors.YELLOW ++ "No routes found." ++ Colors.RESET ].

Definition print_delays_summary (routes : list Summary.t) : result (list string) :=
  if negb (truthy routes) then Ok no_routes_notice
  else
    s <- summary_stats routes ;;
    Ok (render_summary s).

(** ** The web front end ([app.py]) *)

#[warnings="-register-all"]
Inductive json : Type :=
| JNull
| JBool (b : bool)
| JInt (n : Z)
| JString (s : string)
| JArray (items : list json)
| JObject (members : list (string * json)).

(** What [subprocess.run([...], capture_output=True, text=True)] does:
    it raises (the text is [str(e)]) or returns a completed process. *)
Inductive run_outcome : Type :=
| RunRaised (message : string)
| Completed (returncode : Z) (stdout stderr : string).

(** A Flask response: the serialised body and the HTTP status
    ([jsonify(x)] alone answers 200). *)
Record response : Type := mk_response {
  body : json;
  status : Z
}.

Definition jsonify (data : json) : json := data.

Definition success_envelope (raw_output : string) : json :=
  JObject [("status", JString "success"); ("raw_output", JString raw_output)].

Definition error_envelope (message : string) : json :=
  JObject [("status", JString "error"); ("message", JString message)].

Section Endpoint.

(** [json.loads]; [None] stands for the exception it raises. *)
Variable json_loads : string -> option json.

Definition get_delays (run : run_outcome) : response :=
  match run with
  | Completed returncode stdout stderr =>
      if returncode =? 0 then
        match json_loads stdout with
        | Some data => mk_response (jsonify data) 200
        | None => mk_response (jsonify (success_envelope stdout)) 200
        end
      else mk_response (jsonify (error_envelope stderr)) 500
  | RunRaised message =>
      mk_response (jsonify (error_envelope message)) 500
  end.

(** The response announced for a successful run: the decoded output of
    the script, as it is, with status 200. *)
Definition payload_verbatim (run : run_outcome) : Prop :=
  match run with
  | Completed 0 stdout _ =>
      exists data, json_loads stdout = Some data /\
                   get_delays run = mk_response data 200
  | _ => True
  end.

End Endpoint.

(** A reader for the JSON texts made of [null], [true], [false], integers,
    strings without escapes, arrays and objects; every other text is
    rejected.  It stands for [json.loads] where a concrete decoder is
    needed. *)

Definition is_ws (c : ascii) : bool :=
  let n := N_of_ascii c in
  ((n =? 32) || (n =? 9) || (n =? 10) || (n =? 13))%N.

Fixpoint skip_ws (s : string) : string :=
  match s with
  | String c s' => if is_ws c then skip_ws s' else s
  | EmptyString => s
  end.

Definition is_digit (c : ascii) : bool :=
  let n := N_of_ascii c in ((48 <=? n) && (n <=? 57))%N.

Definition QUOTE : ascii := ascii_of_N 34.
Definition BACKSLASH : ascii := ascii_of_N 92.

(** Digits at the head of [s], most significant first. *)
Fixpoint read_digits (acc : Z) (s : string) : Z * string :=
  match s with
  | String c s' =>
      if is_digit c
      then read_digits (10 * acc + (Z.of_N (N_of_ascii c) - 48)) s'
      else (acc, s)
  | EmptyString => (acc, s)
  end.

(** [0] or a digit string without leading zero. *)
Definition read_nat (s : string) : option (Z * string) :=
  match s with
  | String c s' =>
      if Ascii.eqb c "0" then Some (0, s')
      else if is_digit c then Some (read_digits 0 s)
      else None
  | EmptyString => None
  end.

(** The characters up to the closing quote. *)
Fixpoint read_string (s : string) : option (string * string) :=
  match s with
  | EmptyString => None
  | String c s' =>
      if Ascii.eqb c QUOTE then Some (EmptyString, s')
      else if Ascii.eqb c BACKSLASH then None
      else if (N_of_ascii c <? 32)%N then None
      else match read_string s' with
           | Some (t, rest) => Some (String c t, rest)
           | None => None
           end
  end.

(** [Some rest] when [s] starts with [word]. *)
Fixpoint expect (word s : string) : option string :=
  match word, s with
  | EmptyString, _ => Some s
  | String a word', String b s' =>
      if Ascii.eqb a b then expect word' s' else None
  | String _ _, EmptyString => None
  end.

Fixpoint read_value (fuel : nat) (s : string) : option (json * string) :=
  match fuel with
  | O => None
  | S fuel' =>
      match skip_ws s with
      | EmptyString => None
      | String c rest =>
          if Ascii.eqb c "n" then option_map (pair JNull) (expect "ull" rest)
          else if Ascii.eqb c "t" then option_map (pair (JBool true)) (expect "rue" rest)
          else if Ascii.eqb c "f" then option_map (pair (JBool false)) (expect "alse" rest)
          else if Ascii.eqb c QUOTE then
            match read_string rest with
            | Some (t, rest') => Some (JString t, rest')
            | None => None
            end
          else if Ascii.eqb c "-" then
            match read_nat rest with
            | Some (n, rest') => Some (JInt (- n), rest')
            | None => None
            end
          else if is_digit c then
            match read_nat (String c rest) with
            | Some (n, rest') => Some (JInt n, rest')
            | None => None
            end
          else if Ascii.eqb c "[" then
            match skip_ws rest with
            | String d rest' =>
                if Ascii.eqb d "]" then Some (JArray [], rest')
                else match read_items fuel' rest with
                     | Some (items, rest'') => Some (JArray items, rest'')
                     | None => None
                     end
            | EmptyString => None
            end
          else if Ascii.eqb c "{" then
            match skip_ws rest with
            | String d rest' =>
                if Ascii.eqb d "}" then Some (JObject [], rest')
                else match read_members fuel' rest with
                     | Some (members, rest'') => Some (JObject members, rest'')
                     | None => None
                     end
            | EmptyString => None
            end
          else None
      end
  end
with read_items (fuel : nat) (s : string) : option (list json * string) :=
  match fuel with
  | O => None
  | S fuel' =>
      match read_value fuel' s with
      | Some (v, rest) =>
          match skip_ws rest with
          | String d rest' =>
              if Ascii.eqb d "," then
                match read_items fuel' rest' with
                | Some (vs, rest'') => Some (v :: vs, rest'')
                | None => None
                end
              else if Ascii.eqb d "]" then Some ([v], rest')
              else None
          | EmptyString => None
          end
      | None => None
      end
  end
with read_members (fuel : nat) (s : string)
    : option (list (string * json) * string) :=
  match fuel with
  | O => None
  | S fuel' =>
      match expect (String QUOTE EmptyString) (skip_ws s) with
      | Some rest =>
          match read_string rest with
          | Some (key, rest1) =>
              match expect ":" (skip_ws rest1) with
              | Some rest2 =>
                  match read_value fuel' rest2 with
                  | Some (v, rest3) =>
                      match skip_ws rest3 with
                      | String d rest4 =>
                          if Ascii.eqb d "," then
                            match read_members fuel' rest4 with
                            | Some (ms, rest5) => Some ((key, v) :: ms, rest5)
                            | None => None
                            end
                          else if Ascii.eqb d "}" then Some ([(key, v)], rest4)
                          else None
                      | EmptyString => None
                      end
                  | None => None
                  end
              | None => None
              end
          | None => None
          end
      | None => None
      end
  end.

Definition read_json (s : string) : option json :=
  match read_value (2 * String.length s + 2) s with
  | Some (v, rest) =>
      match skip_ws rest with
      | EmptyString => Some v
      | String _ _ => None
      end
  | None => None
  end.

(** What [main] of [regiojet_api.py] prints first: the banner's opening
    escape codes. *)
Definition banner_head : string :=
  Colors.BOLD ++ Colors.MAGENTA ++ NL.

(** ** Vocabulary of the statements *)

(** Two texts that differ only in letter case: they agree once both are
    put in upper case, or both in lower case. *)
Definition differ_only_in_case (s t : string) : Prop :=
  upper s = upper t \/ lower s = lower t.

(** [find_station] does not tell two such search terms apart. *)
Definition case_insensitive_at (api : Upstream) (s t : string) : Prop :=
  differ_only_in_case s t -> find_station api s = find_station api t.

(** The station IDs of a route's stop sequence. *)
Definition stop_ids (route : Route.t) : list Z :=
  map Stop.stationId (get (Route.connectionStations route) []).

(** The stop sequence of [route] contains station [id]. *)
Definition has_stop (id : Z) (route : Route.t) : bool :=
  if in_dec Z.eq_dec id (stop_ids route) then true else false.

(** The summary [find_route] appends for [route]. *)
Definition summary_of (from_station_id to_station_id : Z) (route : Route.t)
    : Summary.t :=
  let stations := get (Route.connectionStations route) [] in
  let v := scan_stops from_station_id to_station_id stations in
  Summary.mk (Route.number route) (Route.label route)
             (get (Route.delay route) 0) (get (Route.freeSeatsCount route) 0)
             (departure_time v) (arrival_time v)
             (departure_platform v) (arrival_platform v)
             (Route.vehicleStandard route) stations.

(** A service that answers every departures query with [departures]. *)
Definition fixed_service (departures : list Route.t)
    (locations : list Country.t) : Upstream :=
  {| get_arrivals := fun _ _ => Ok [];
     get_departures := fun _ _ => Ok departures;
     get_all_locations := Ok locations |}.

(** ** The rest of the presentation layer *)

(** Standard output is the text written so far: [print(s)] appends [s] and
    a newline, [print(s, end=...)] with an empty [end] appends [s] alone. *)
Definition print (out s : string) : string := out ++ s ++ NL.

Definition write (out s : string) : string := out ++ s.

(** The text of the lines [print_delays_summary] printed. *)
Definition lines_text (lines : list string) : string :=
  fold_left print lines EmptyString.

(** [s * n] on a string. *)
Fixpoint str_mul (s : string) (n : nat) : string :=
  match n with
  | O => EmptyString
  | S n' => s ++ str_mul s n'
  end.

(** How an f-string renders a value that is a string or [None]. *)
Definition str_opt (v : option string) : string :=
  match v with
  | Some s => s
  | None => "None"
  end.

(** Truth value of a value that is a string or [None]. *)
Definition truthy_str (v : option string) : bool :=
  match v with
  | Some EmptyString => false
  | Some (String _ _) => true
  | None => false
  end.

(** [s.replace('Z', '+00:00')] *)
Fixpoint replace_Z (s : string) : string :=
  match s with
  | EmptyString => EmptyString
  | String c s' =>
      if Ascii.eqb c "Z" then "+00:00" ++ replace_Z s'
      else String c (replace_Z s')
  end.

Definition _format_delay (delay : Z) : string :=
  if delay =? 0 then Colors.GREEN ++ "ON TIME" ++ Colors.RESET
  else if delay <? 10
       then Colors.YELLOW ++ "+" ++ str_int delay ++ " min" ++ Colors.RESET
       else Colors.RED ++ "+" ++ str_int delay ++ " min" ++ Colors.RESET.

(** [enumerate(xs, start)] *)
Fixpoint enumerate {A : Type} (xs : list A) (start : Z) : list (Z * A) :=
  match xs with
  | [] => []
  | x :: xs' => (start, x) :: enumerate xs' (start + 1)
  end.

Section Printing.

(** [datetime.fromisoformat(s).strftime('%H:%M')]; [None] stands for the
    exception [fromisoformat] raises on a text it does not accept. *)
Variable isoformat_HM : string -> option string.

Definition _format_datetime (dt_str : option string) : string :=
  if negb (truthy_str dt_str) then "N/A"
  else
    let s := get dt_str EmptyString in
    match isoformat_HM (replace_Z s) with
    | Some hm => hm
    | None => s
    end.

(** Body of [for i, route in enumerate(routes, 1)].  The summaries carry
    every key, so the defaults of [route.get] are never taken: a missing
    number or label is the value [None]. *)
Definition route_entry (show_details : bool) (out : string)
    (entry : Z * Summary.t) : string :=
  let (i, route) := entry in
  let out := print out (Colors.BOLD ++ Colors.BLUE ++ "[" ++ str_int i
                          ++ "] Bus/Train " ++ str_opt (Summary.number route)
                          ++ Colors.RESET) in
  let out := print out ("    " ++ Colors.WHITE ++ str_opt (Summary.label route)
                          ++ Colors.RESET) in
  let delay := Summary.delay route in
  let delay_str := _format_delay delay in
  let out := print out ("    Status: " ++ delay_str) in
  let dep_time := _format_datetime (Summary.departure_time route) in
  let arr_time := _format_datetime (Summary.arrival_time route) in
  let out := write out ("    Departure: " ++ Colors.GREEN ++ dep_time
                          ++ Colors.RESET) in
  let out :=
    if truthy_str (Summary.departure_platform route)
    then write out (" (Platform " ++ str_opt (Summary.departure_platform route)
                      ++ ")")
    else out in
  let out := print out EmptyString in
  let out := write out ("    Arrival: " ++ Colors.GREEN ++ arr_time
                          ++ Colors.RESET) in
  let out :=
    if truthy_str (Summary.arrival_platform route)
    then write out (" (Platform " ++ str_opt (Summary.arrival_platform route)
                      ++ ")")
    else out in
  let out := print out EmptyString in
  let out :=
    if show_details then
      let out := print out ("    Free seats: "
                              ++ str_int (Summary.free_seats route)) in
      if truthy_str (Summary.vehicle_standard route)
      then print out ("    Vehicle: "
                        ++ str_opt (Summary.vehicle_standard route))
      else out
    else out in
  print out EmptyString.

Definition print_routes (routes : list Summary.t) (show_details : bool)
    (out : string) : string :=
  if negb (truthy routes)
  then print out (Colors.YELLOW ++ "No routes found." ++ Colors.RESET)
  else
    let out := print out (NL ++ Colors.BOLD ++ Colors.CYAN ++ str_mul "=" 80
                            ++ Colors.RESET) in
    let out := print out (Colors.BOLD ++ "Found "
                            ++ str_int (Z.of_nat (List.length routes))
                            ++ " route(s)" ++ Colors.RESET) in
    let out := print out (Colors.CYAN ++ str_mul "=" 80 ++ Colors.RESET
                            ++ NL) in
    fold_left (route_entry show_details) (enumerate routes 1) out.

(** ** [main] *)

(** What [main] prints before it enters [try]. *)
Definition main_preamble : string :=
  let out := EmptyString in
  let out := print out (Colors.BOLD ++ Colors.MAGENTA) in
  let out := print out "╔═══════════════════════════════════════════════════════════╗" in
  let out := print out "║        RegioJet API - Karlovy Vary → Sokolov Route       ║" in
  let out := print out "╚═══════════════════════════════════════════════════════════╝" in
  let out := print out (Colors.RESET ++ NL) in
  let from_station := 17902024 in
  let to_station := 721181001 in
  let out := print out (Colors.BOLD
                          ++ "Checking route: Karlovy Vary Terminal → Sokolov Terminal"
                          ++ Colors.RESET) in
  print out ("Station IDs: " ++ str_int from_station ++ " → "
               ++ str_int to_station ++ NL).

(** The [try] block of [main], started on the output [out]: the text on
    standard output when the block completes, or the exception that sends
    [main] to its handler (what the handler and a failing request print is
    not part of the model). *)
Definition main_try (api : Upstream) (out : string) : result string :=
  let from_station := 17902024 in
  let to_station := 721181001 in
  routes <- find_route api from_station to_station 50 ;;
  let out := print_routes routes true out in
  lines <- print_delays_summary routes ;;
  let out := fold_left print lines out in
  let delayed_routes := filter (fun r => Summary.delay r >=? 10) routes in
  if truthy delayed_routes
  then
    let out := print out (Colors.BOLD ++ Colors.RED
                            ++ "⚠ SIGNIFICANT DELAYS (≥10 min):"
                            ++ Colors.RESET) in
    Ok (print_routes delayed_routes false out)
  else Ok out.

(** The exit status of the script: [sys.exit(1)] in the handler, 0 when
    [main] returns. *)
Definition main_exit_status (api : Upstream) : Z :=
  match main_try api main_preamble with
  | Ok _ => 0
  | Raise _ => 1
  end.

End Printing.

(** ** Requests *)

Definition BASE_URL : string := "https://brn-ybus-pubapi.sa.cz/restapi".

(** What [urlopen] followed by [read().decode('utf-8')] comes to: the body
    as text; an [HTTPError] whose body was read and decoded; a [URLError];
    or any other exception ([UnicodeDecodeError] on a body that is not
    UTF-8, a timeout while reading), which none of the handlers of
    [_make_request] catches. *)
Inductive transport : Type :=
| Delivered (data : string)
| HTTPFailure (code : Z) (reason error_body : string)
| URLFailure (reason : string)
| Escaped (e : exn).

Module Http.
Section Request.

(** [urllib.request.urlopen] on a URL and request headers. *)
Variable urlopen : string -> list (string * string) -> transport.

(** [json.loads]: the value, or the text of the [JSONDecodeError]. *)
Variable json_loads : string -> string + json.

(** The argument of [__init__]. *)
Variable language : string.

Definition headers : list (string * string) :=
  [("Accept", "application/json");
   ("X-Lang", language);
   ("User-Agent", "RegioJetAPI/1.0")].

(** The lines printed and the value returned or exception re-raised. *)
Definition _make_request (endpoint : string) : list string * result json :=
  let url := BASE_URL ++ endpoint in
  match urlopen url headers with
  | Delivered data =>
      match json_loads data with
      | inr value => ([], Ok value)
      | inl e =>
          ([Colors.RED ++ "JSON Decode Error: " ++ e ++ Colors.RESET],
           Raise JSONDecodeError)
      end
  | HTTPFailure code reason error_body =>
      ([Colors.RED ++ "HTTP Error " ++ str_int code ++ ": " ++ reason
          ++ Colors.RESET;
        "Response: " ++ error_body],
       Raise (HTTPError code))
  | URLFailure reason =>
      ([Colors.RED ++ "URL Error: " ++ reason ++ Colors.RESET],
       Raise URLError)
  | Escaped e => ([], Raise e)
  end.

Definition arrivals_endpoint (station_id limit : Z) : string :=
  "/routes/" ++ str_int station_id ++ "/arrivals?limit=" ++ str_int limit.

Definition departures_endpoint (station_id limit : Z) : string :=
  "/routes/" ++ str_int station_id ++ "/departures?limit=" ++ str_int limit.

Definition locations_endpoint : string := "/consts/locations".

Definition get_arrivals (station_id limit : Z) : list string * result json :=
  _make_request (arrivals_endpoint station_id limit).

Definition get_departures (station_id limit : Z) : list string * result json :=
  _make_request (departures_endpoint station_id limit).

Definition get_all_locations : list string * result json :=
  _make_request locations_endpoint.

End Request.
End Http.

(** ** Sample data

    The station IDs of the class constant [STATIONS] and a small
    departures board and location directory built on them. *)

Module STATIONS.
Definition KARLOVY_VARY_TERMINAL : Z := 17902024.
Definition KARLOVY_VARY_TRZNICE : Z := 17902023.
Definition SOKOLOV_TERMINAL : Z := 721181001.
Definition SOKOLOV_TESOVICE : Z := 721181000.
Definition PRAHA_FLORENC : Z := 10204003.
Definition CHEB : Z := 721181002.
End STATIONS.

Module Sample.
Import STATIONS.

Definition kv_first : Stop.t :=
  Stop.mk KARLOVY_VARY_TERMINAL None (Some "2024-05-01T10:00:00Z") (Some "1").
Definition kv_again : Stop.t :=
  Stop.mk KARLOVY_VARY_TERMINAL (Some "2024-05-01T10:04:00Z")
          (Some "2024-05-01T10:05:00Z") (Some "3").
Definition sokolov_first : Stop.t :=
  Stop.mk SOKOLOV_TERMINAL (Some "2024-05-01T10:40:00Z")
          (Some "2024-05-01T10:41:00Z") (Some "2").
Definition sokolov_again : Stop.t :=
  Stop.mk SOKOLOV_TERMINAL (Some "2024-05-01T10:50:00Z") None None.
Definition praha : Stop.t :=
  Stop.mk PRAHA_FLORENC (Some "2024-05-01T12:30:00Z") None (Some "7").

(** Origin and destination both listed twice. *)
Definition loop_route : Route.t :=
  Route.mk (Some "RJ 1401") (Some "Karlovy Vary - Sokolov") (Some 5)
           (Some 12) (Some "YELLOW")
           (Some [kv_first; kv_again; sokolov_first; sokolov_again]).

(** No ['delay'] key. *)
Definition quiet_route : Route.t :=
  Route.mk (Some "RJ 1403") (Some "Karlovy Vary - Cheb") None None None
           (Some [kv_first; sokolov_first]).

(** Does not call at Sokolov. *)
Definition praha_route : Route.t :=
  Route.mk (Some "RJ 1405") (Some "Karlovy Vary - Praha") (Some 20)
           (Some 3) None (Some [kv_first; praha]).

Definition late_route : Route.t :=
  Route.mk (Some "RJ 1407") (Some "Karlovy Vary - Sokolov") (Some 15)
           (Some 0) (Some "YELLOW") (Some [kv_first; sokolov_first]).

Definition board : list Route.t :=
  [loop_route; quiet_route; praha_route; late_route].

Definition sokolov_city : City.t :=
  City.mk "Sokolov" 7211 
    (Some [Station.mk "Terminal" SOKOLOV_TERMINAL
                      (Some "Sokolov - Terminal") None;
           Station.mk "Tesovice" SOKOLOV_TESOVICE None
                      (Some "Tesovice 12")]).

Definition cheb_city : City.t :=
  City.mk "Cheb" 7212
    (Some [Station.mk "Nadrazi" CHEB (Some "Cheb - Nadrazi") None;
           Station.mk "Sokolovska" 721181003
                      (Some "Cheb - Sokolovska") None]).

Definition directory : list Country.t :=
  [Country.mk (Some [sokolov_city; cheb_city]); Country.mk None].

Definition service : Upstream := fixed_service board directory.

(** Three summaries with delays 0, 5 and 15. *)
Definition three_routes : list Summary.t :=
  map (fun d => Summary.mk None None d 0 None None None None None [])
      [0; 5; 15].
End Sample.

(** ** Vocabulary of the further statements *)

(** The strings of a list, one after the other. *)
Definition join (parts : list string) : string :=
  fold_right append EmptyString parts.

(** The three header lines of [print_routes] for [n] routes. *)
Definition routes_header (n : nat) : string :=
  NL ++ Colors.BOLD ++ Colors.CYAN ++ str_mul "=" 80 ++ Colors.RESET ++ NL
  ++ Colors.BOLD ++ "Found " ++ str_int (Z.of_nat n) ++ " route(s)"
  ++ Colors.RESET ++ NL
  ++ Colors.CYAN ++ str_mul "=" 80 ++ Colors.RESET ++ NL ++ NL.

(** The line both printers print for an empty list. *)
Definition notice_line : string :=
  Colors.YELLOW ++ "No routes found." ++ Colors.RESET ++ NL.

(** The character [c] occurs in [s]. *)
Fixpoint has_char (c : ascii) (s : string) : bool :=
  match s with
  | EmptyString => false
  | String c' s' => Ascii.eqb c c' || has_char c s'
  end.

(** The heading [main] prints above the routes delayed by 10 minutes or
    more. *)
Definition significant_heading : string :=
  Colors.BOLD ++ Colors.RED ++ "⚠ SIGNIFICANT DELAYS (≥10 min):"
  ++ Colors.RESET.

(** The fields of a summary that [print_routes] shows without details. *)
Definition visible (r : Summary.t)
    : option string * option string * Z
      * option string * option string * option string * option string :=
  (Summary.number r, Summary.label r, Summary.delay r,
   Summary.departure_time r, Summary.arrival_time r,
   Summary.departure_platform r, Summary.arrival_platform r).

(** ** More sample data *)

Module Demo.
Import STATIONS.

(** A departure whose stop list does not name the queried origin. *)
Definition detached_route : Route.t :=
  Route.mk (Some "RJ 1409") (Some "Cheb - Sokolov") (Some 2) (Some 4) None
           (Some [Stop.mk CHEB None (Some "2024-05-01T09:00:00Z") (Some "5");
                  Sample.sokolov_first]).

Definition detached_service : Upstream :=
  fixed_service [detached_route] [].

(** A service whose departures never reach Sokolov. *)
Definition empty_service : Upstream :=
  fixed_service [Sample.praha_route] [].

(** A stand-in for the clock conversion: the five characters at offset 11
    of a text of at least 16 characters. *)
Definition clock (s : string) : option string :=
  if (16 <=? String.length s)%nat then Some (substring 11 5 s) else None.

(** The text the script prints on [Sample.service]. *)
Definition report : string :=
  Eval vm_compute in
    match main_try clock Sample.service main_preamble with
    | Ok text => text
    | Raise _ => EmptyString
    end.

(** Two boards that differ in free seats, vehicle and stops only. *)
Definition shown : list Summary.t :=
  [Summary.mk (Some "RJ 1") (Some "A - B") 12 3 (Some "2024-05-01T10:00:00Z")
              None (Some "1") None (Some "YELLOW") [Sample.kv_first]].

Definition shown_otherwise : list Summary.t :=
  [Summary.mk (Some "RJ 1") (Some "A - B") 12 40 (Some "2024-05-01T10:00:00Z")
              None (Some "1") None None []].

(** A transport that delivers one body for every request, and a decoder
    built on [read_json]. *)
Definition still_transport (data : string)
    (url : string) (headers : list (string * string)) : transport :=
  Delivered data.

Definition decode (data : string) : string + json :=
  match read_json data with
  | Some value => inr value
  | None => inl "Expecting value"
  end.

(** A service whose every request fails in transport. *)
Definition failing_service : Upstream :=
  {| get_arrivals := fun _ _ => Raise URLError;
     get_departures := fun _ _ => Raise URLError;
     get_all_locations := Raise URLError |}.

(** The routes of [Sample.service] delayed by 10 minutes or more, and
    their statistics. *)
Definition late_routes : list Summary.t :=
  [summary_of KARLOVY_VARY_TERMINAL SOKOLOV_TERMINAL Sample.late_route].

Definition late_stats : stats :=
  Eval vm_compute in
    match summary_stats late_routes with
    | Ok s => s
    | Raise _ => mk_stats 0 0 0 (S754_zero false) 0
    end.

(** Two routes on time. *)
Definition punctual : list Summary.t :=
  map (fun d => Summary.mk None None d 0 None None None None None [])
      [0; 0].
(** A directory with names beyond the letters A to Z. *)
Definition plzen_city : City.t :=
  City.mk "Plzeň" 3100
    (Some [Station.mk "CAN" 372825000
                      (Some "Plzeň, Centrální autobusové nádraží")
                      (Some "Husova 60");
           Station.mk "Hlavní nádraží" 372825001 None None]).

Definition praha_city : City.t :=
  City.mk "Praha" 1000
    (Some [Station.mk "Florenc" PRAHA_FLORENC (Some "Praha, ÚAN Florenc") None;
           Station.mk "Na Knížecí" 10204002
                      (Some "Praha, Na Knížecí (směr Plzeň)") None]).

Definition wien_city : City.t :=
  City.mk "Wien" 4300
    (Some [Station.mk "Lassallestraße" 10202052
                      (Some "Wien, Lassallestraße") None;
           Station.mk "Hauptbahnhof" 10202053 None None]).

Definition central_directory : list Country.t :=
  [Country.mk (Some [plzen_city; praha_city]); Country.mk (Some [wien_city])].

Definition central_service : Upstream := fixed_service [] central_directory.

(** What [find_station] returns for the term PLZEŇ on that directory. *)
Definition plzen_results : list Match.t :=
  [ Match.mk "Plzeň" 3100 "CAN" 372825000
             "Plzeň, Centrální autobusové nádraží" "Husova 60";
    Match.mk "Plzeň" 3100 "Hlavní nádraží" 372825001 EmptyString "N/A";
    Match.mk "Praha" 1000 "Na Knížecí" 10204002
             "Praha, Na Knížecí (směr Plzeň)" "N/A" ].
End Demo.

(** * Properties *)

(** ** The route loop *)

Lemma contains_id_In (x : Z) (xs : list Z) :
  contains_id x xs = true <-> In x xs.
Proof.
  unfold contains_id. rewrite existsb_exists. split.
  - intros [y [Hy Heq]]. apply Z.eqb_eq in Heq. now subst.
  - intros Hx. exists x. split; [assumption | apply Z.eqb_refl].
Qed.

Lemma contains_id_has_stop (id : Z) (route : Route.t) :
  contains_id id (stop_ids route) = has_stop id route.
Proof.
  unfold has_stop. destruct (in_dec Z.eq_dec id (stop_ids route)) as [Hin | Hout].
  - now apply contains_id_In.
  - destruct (contains_id id (stop_ids route)) eqn:E; [| reflexivity].
    apply contains_id_In in E. contradiction.
Qed.

Lemma has_stop_In (id : Z) (route : Route.t) :
  has_stop id route = true <-> In id (stop_ids route).
Proof.
  rewrite <- contains_id_has_stop. apply contains_id_In.
Qed.

Lemma route_step_spec (f t : Z) (routes : list Summary.t) (route : Route.t) :
  route_step f t routes route =
  if has_stop t route then (routes ++ [summary_of f t route])%list else routes.
Proof.
  unfold route_step. fold (stop_ids route).
  rewrite contains_id_has_stop. reflexivity.
Qed.

Lemma fold_route_step (f t : Z) (departures : list Route.t) :
  forall acc,
    fold_left (route_step f t) departures acc =
    (acc ++ map (summary_of f t) (filter (has_stop t) departures))%list.
Proof.
  induction departures as [| route rest IH]; intros acc; simpl.
  - now rewrite app_nil_r.
  - rewrite IH, route_step_spec.
    destruct (has_stop t route); simpl; [| reflexivity].
    now rewrite <- app_assoc.
Qed.

Lemma find_route_spec (api : Upstream) (f t limit : Z) (departures : list Route.t) :
  get_departures api f limit = Ok departures ->
  find_route api f t limit =
  Ok (map (summary_of f t) (filter (has_stop t) departures)).
Proof.
  intros H. unfold find_route. rewrite H. simpl.
  now rewrite fold_route_step.
Qed.

Lemma find_route_inv (api : Upstream) (f t limit : Z) (routes : list Summary.t) :
  find_route api f t limit = Ok routes ->
  exists departures,
    get_departures api f limit = Ok departures /\
    routes = map (summary_of f t) (filter (has_stop t) departures).
Proof.
  unfold find_route. destruct (get_departures api f limit) as [deps | e]; simpl.
  - intros H. injection H as <-. exists deps. split; [reflexivity |].
    apply fold_route_step.
  - discriminate.
Qed.

Lemma find_route_member (api : Upstream) (f t limit : Z)
    (routes : list Summary.t) (r : Summary.t) :
  find_route api f t limit = Ok routes -> In r routes ->
  exists route, has_stop t route = true /\ r = summary_of f t route.
Proof.
  intros Hfind Hin. apply find_route_inv in Hfind as [deps [_ ->]].
  apply in_map_iff in Hin as [route [<- Hroute]].
  apply filter_In in Hroute as [_ Hstop]. now exists route.
Qed.

(** ** The stop loop *)

Lemma scan_step_keeps_departure (f t : Z) (v : times) (x : Stop.t) :
  Stop.stationId x <> f ->
  departure_time (scan_step f t v x) = departure_time v /\
  departure_platform (scan_step f t v x) = departure_platform v.
Proof.
  intros Hne. unfold scan_step.
  apply Z.eqb_neq in Hne. rewrite Hne.
  destruct (Stop.stationId x =? t); split; reflexivity.
Qed.

Lemma scan_step_keeps_arrival (f t : Z) (v : times) (x : Stop.t) :
  Stop.stationId x <> t ->
  arrival_time (scan_step f t v x) = arrival_time v /\
  arrival_platform (scan_step f t v x) = arrival_platform v.
Proof.
  intros Hne. unfold scan_step.
  apply Z.eqb_neq in Hne. rewrite Hne.
  destruct (Stop.stationId x =? f); split; reflexivity.
Qed.

Lemma scan_step_sets_departure (f t : Z) (v : times) (x : Stop.t) :
  Stop.stationId x = f ->
  departure_time (scan_step f t v x) = Stop.departure x /\
  departure_platform (scan_step f t v x) = Stop.platform x.
Proof.
  intros He. unfold scan_step.
  apply Z.eqb_eq in He. rewrite He.
  destruct (Stop.stationId x =? t); split; reflexivity.
Qed.

Lemma scan_step_sets_arrival (f t : Z) (v : times) (x : Stop.t) :
  Stop.stationId x = t ->
  arrival_time (scan_step f t v x) = Stop.arrival x /\
  arrival_platform (scan_step f t v x) = Stop.platform x.
Proof.
  intros He. unfold scan_step.
  apply Z.eqb_eq in He. rewrite He.
  destruct (Stop.stationId x =? f); split; reflexivity.
Qed.

Lemma fold_scan_keeps_departure (f t : Z) (post : list Stop.t) :
  Forall (fun x => Stop.stationId x <> f) post ->
  forall v,
    departure_time (fold_left (scan_step f t) post v) = departure_time v /\
    departure_platform (fold_left (scan_step f t) post v) = departure_platform v.
Proof.
  induction 1 as [| x post Hx _ IH]; intros v; simpl.
  - split; reflexivity.
  - destruct (IH (scan_step f t v x)) as [-> ->].
    now apply scan_step_keeps_departure.
Qed.

Lemma fold_scan_keeps_arrival (f t : Z) (post : list Stop.t) :
  Forall (fun x => Stop.stationId x <> t) post ->
  forall v,
    arrival_time (fold_left (scan_step f t) post v) = arrival_time v /\
    arrival_platform (fold_left (scan_step f t) post v) = arrival_platform v.
Proof.
  induction 1 as [| x post Hx _ IH]; intros v; simpl.
  - split; reflexivity.
  - destruct (IH (scan_step f t v x)) as [-> ->].
    now apply scan_step_keeps_arrival.
Qed.

Lemma scan_stops_last_origin (f t : Z) (pre post : list Stop.t) (s : Stop.t) :
  Stop.stationId s = f ->
  Forall (fun x => Stop.stationId x <> f) post ->
  departure_time (scan_stops f t (pre ++ s :: post)%list) = Stop.departure s /\
  departure_platform (scan_stops f t (pre ++ s :: post)%list) = Stop.platform s.
Proof.
  intros Hs Hpost. unfold scan_stops. rewrite fold_left_app. simpl.
  destruct (fold_scan_keeps_departure f t post Hpost
              (scan_step f t (fold_left (scan_step f t) pre no_times) s))
    as [-> ->].
  now apply scan_step_sets_departure.
Qed.

Lemma scan_stops_last_destination (f t : Z) (pre post : list Stop.t) (s : Stop.t) :
  Stop.stationId s = t ->
  Forall (fun x => Stop.stationId x <> t) post ->
  arrival_time (scan_stops f t (pre ++ s :: post)%list) = Stop.arrival s /\
  arrival_platform (scan_stops f t (pre ++ s :: post)%list) = Stop.platform s.
Proof.
  intros Hs Hpost. unfold scan_stops. rewrite fold_left_app. simpl.
  destruct (fold_scan_keeps_arrival f t post Hpost
              (scan_step f t (fold_left (scan_step f t) pre no_times) s))
    as [-> ->].
  now apply scan_step_sets_arrival.
Qed.

(** ** [check_delays] *)

Lemma check_delays_filter (api : Upstream) (f t T : Z) (routes : list Summary.t) :
  T > 0 ->
  find_route api f t 50 = Ok routes ->
  check_delays api f t T = Ok (filter (fun r => T <=? Summary.delay r) routes).
Proof.
  intros HT Hfind. unfold check_delays. rewrite Hfind. simpl.
  replace (T >? 0) with true by (symmetry; apply Z.gtb_lt; lia).
  f_equal. apply filter_ext. intros r. apply Z.geb_leb.
Qed.

(** C1. With a threshold [T > 0], [check_delays] returns the routes of
    [find_route] whose delay is at least [T], and only those, in the order
    [find_route] produced them. *)
Theorem check_delays_positive_threshold
    (api : Upstream) (from_station_id to_station_id T : Z)
    (routes : list Summary.t) :
  T > 0 ->
  find_route api from_station_id to_station_id 50 = Ok routes ->
  exists out,
    check_delays api from_station_id to_station_id T = Ok out /\
    out = filter (fun r => T <=? Summary.delay r) routes /\
    (forall r, In r out <-> In r routes /\ Summary.delay r >= T).
Proof.
  intros HT Hfind.
  exists (filter (fun r => T <=? Summary.delay r) routes).
  split; [| split].
  - now apply check_delays_filter.
  - reflexivity.
  - intros r. rewrite filter_In, Z.leb_le. split; intros [Hin Hle]; split;
      assumption || lia.
Qed.

Lemma check_delays_positive_threshold_witness :
  10 > 0 /\
  find_route Sample.service STATIONS.KARLOVY_VARY_TERMINAL
             STATIONS.SOKOLOV_TERMINAL 50
  = Ok (map (summary_of STATIONS.KARLOVY_VARY_TERMINAL STATIONS.SOKOLOV_TERMINAL)
            [Sample.loop_route; Sample.quiet_route; Sample.late_route]) /\
  exists out,
    check_delays Sample.service STATIONS.KARLOVY_VARY_TERMINAL
                 STATIONS.SOKOLOV_TERMINAL 10 = Ok out /\
    out = filter (fun r => 10 <=? Summary.delay r)
            (map (summary_of STATIONS.KARLOVY_VARY_TERMINAL
                             STATIONS.SOKOLOV_TERMINAL)
                 [Sample.loop_route; Sample.quiet_route; Sample.late_route]) /\
    (forall r, In r out <->
               In r (map (summary_of STATIONS.KARLOVY_VARY_TERMINAL
                                     STATIONS.SOKOLOV_TERMINAL)
                         [Sample.loop_route; Sample.quiet_route; Sample.late_route])
               /\ Summary.delay r >= 10).
Proof.
  split; [lia |]. split; [reflexivity |].
  apply (check_delays_positive_threshold Sample.service
           STATIONS.KARLOVY_VARY_TERMINAL STATIONS.SOKOLOV_TERMINAL 10);
    [lia | reflexivity].
Defined.

(** C2. With a threshold that is zero or negative, [check_delays] returns
    what [find_route] returns for the same pair of stations, unfiltered. *)
Theorem check_delays_nonpositive_threshold
    (api : Upstream) (from_station_id to_station_id T : Z) :
  T <= 0 ->
  check_delays api from_station_id to_station_id T =
  find_route api from_station_id to_station_id 50.
Proof.
  intros HT. unfold check_delays.
  destruct (find_route api from_station_id to_station_id 50) as [routes | e];
    simpl; [| reflexivity].
  destruct (T >? 0) eqn:E; [| reflexivity].
  apply Z.gtb_lt in E. lia.
Qed.

Lemma check_delays_nonpositive_threshold_witness :
  -3 <= 0 /\
  check_delays Sample.service STATIONS.KARLOVY_VARY_TERMINAL
               STATIONS.SOKOLOV_TERMINAL (-3) =
  find_route Sample.service STATIONS.KARLOVY_VARY_TERMINAL
             STATIONS.SOKOLOV_TERMINAL 50.
Proof.
  split; [lia |].
  apply (check_delays_nonpositive_threshold Sample.service
           STATIONS.KARLOVY_VARY_TERMINAL STATIONS.SOKOLOV_TERMINAL (-3)).
  lia.
Defined.

(** ** [find_route] *)

(** C3. [find_route] emits a summary exactly for the departures whose stop
    sequence contains the destination: every emitted summary lists the
    destination among its stops, and a departure without it yields no
    summary. *)
Theorem find_route_requires_destination
    (api : Upstream) (from_station_id to_station_id limit : Z)
    (departures : list Route.t) :
  get_departures api from_station_id limit = Ok departures ->
  exists routes,
    find_route api from_station_id to_station_id limit = Ok routes /\
    routes = map (summary_of from_station_id to_station_id)
                 (filter (has_stop to_station_id) departures) /\
    Forall (fun r => In to_station_id
                        (map Stop.stationId (Summary.all_stations r))) routes /\
    (forall route,
        In route departures ->
        ~ In to_station_id (stop_ids route) ->
        ~ In (summary_of from_station_id to_station_id route) routes).
Proof.
  intros Hdep.
  assert (Hall : Forall (fun r => In to_station_id
                                    (map Stop.stationId (Summary.all_stations r)))
                   (map (summary_of from_station_id to_station_id)
                        (filter (has_stop to_station_id) departures))).
  { apply Forall_forall. intros r Hin.
    apply in_map_iff in Hin as [route [<- Hroute]].
    apply filter_In in Hroute as [_ Hstop].
    apply has_stop_In in Hstop. exact Hstop. }
  exists (map (summary_of from_station_id to_station_id)
              (filter (has_stop to_station_id) departures)).
  split; [apply find_route_spec; exact Hdep |].
  split; [reflexivity |]. split; [exact Hall |].
  intros route _ Hout Hin.
  rewrite Forall_forall in Hall. apply Hall in Hin. apply Hout. exact Hin.
Qed.

Lemma find_route_requires_destination_witness :
  get_departures Sample.service STATIONS.KARLOVY_VARY_TERMINAL 50
  = Ok Sample.board /\
  exists routes,
    find_route Sample.service STATIONS.KARLOVY_VARY_TERMINAL
               STATIONS.SOKOLOV_TERMINAL 50 = Ok routes /\
    routes = map (summary_of STATIONS.KARLOVY_VARY_TERMINAL
                             STATIONS.SOKOLOV_TERMINAL)
                 (filter (has_stop STATIONS.SOKOLOV_TERMINAL) Sample.board) /\
    Forall (fun r => In STATIONS.SOKOLOV_TERMINAL
                        (map Stop.stationId (Summary.all_stations r))) routes /\
    (forall route,
        In route Sample.board ->
        ~ In STATIONS.SOKOLOV_TERMINAL (stop_ids route) ->
        ~ In (summary_of STATIONS.KARLOVY_VARY_TERMINAL
                         STATIONS.SOKOLOV_TERMINAL route) routes).
Proof.
  split; [reflexivity |].
  apply (find_route_requires_destination Sample.service
           STATIONS.KARLOVY_VARY_TERMINAL STATIONS.SOKOLOV_TERMINAL 50
           Sample.board).
  reflexivity.
Defined.

(** C4. In an emitted summary the departure time and platform are those of
    the last stop of the sequence whose station is the origin, and the
    arrival time and platform those of the last stop whose station is the
    destination: later matching stops overwrite earlier ones. *)
Theorem find_route_last_stop_wins
    (api : Upstream) (from_station_id to_station_id limit : Z)
    (routes : list Summary.t) (r : Summary.t) :
  find_route api from_station_id to_station_id limit = Ok routes ->
  In r routes ->
  (forall pre s post,
      Summary.all_stations r = (pre ++ s :: post)%list ->
      Stop.stationId s = from_station_id ->
      Forall (fun x => Stop.stationId x <> from_station_id) post ->
      Summary.departure_time r = Stop.departure s /\
      Summary.departure_platform r = Stop.platform s) /\
  (forall pre s post,
      Summary.all_stations r = (pre ++ s :: post)%list ->
      Stop.stationId s = to_station_id ->
      Forall (fun x => Stop.stationId x <> to_station_id) post ->
      Summary.arrival_time r = Stop.arrival s /\
      Summary.arrival_platform r = Stop.platform s).
Proof.
  intros Hfind Hin.
  destruct (find_route_member _ _ _ _ _ _ Hfind Hin) as [route [_ ->]].
  unfold summary_of; simpl.
  split; intros pre s post Hsplit Hs Hpost; rewrite Hsplit.
  - now apply scan_stops_last_origin.
  - now apply scan_stops_last_destination.
Qed.

Lemma find_route_last_stop_wins_witness :
  let f := STATIONS.KARLOVY_VARY_TERMINAL in
  let t := STATIONS.SOKOLOV_TERMINAL in
  let r := summary_of f t Sample.loop_route in
  find_route Sample.service f t 50
  = Ok (map (summary_of f t)
            [Sample.loop_route; Sample.quiet_route; Sample.late_route]) /\
  In r (map (summary_of f t)
            [Sample.loop_route; Sample.quiet_route; Sample.late_route]) /\
  Summary.all_stations r
  = [Sample.kv_first; Sample.kv_again; Sample.sokolov_first; Sample.sokolov_again] /\
  Summary.departure_time r = Some "2024-05-01T10:05:00Z" /\
  Summary.departure_platform r = Some "3" /\
  Summary.arrival_time r = Some "2024-05-01T10:50:00Z" /\
  Summary.arrival_platform r = None.
Proof.
  intros f t r.
  assert (Hfind : find_route Sample.service f t 50
                  = Ok (map (summary_of f t)
                          [Sample.loop_route; Sample.quiet_route; Sample.late_route]))
    by reflexivity.
  assert (Hin : In r (map (summary_of f t)
                        [Sample.loop_route; Sample.quiet_route; Sample.late_route]))
    by (left; reflexivity).
  destruct (find_route_last_stop_wins Sample.service f t 50 _ r Hfind Hin)
    as [Hdep Harr].
  destruct (Hdep [Sample.kv_first] Sample.kv_again
                 [Sample.sokolov_first; Sample.sokolov_again])
    as [Hd1 Hd2];
    [reflexivity | reflexivity | repeat constructor; discriminate |].
  destruct (Harr [Sample.kv_first; Sample.kv_again; Sample.sokolov_first]
                 Sample.sokolov_again [])
    as [Ha1 Ha2];
    [reflexivity | reflexivity | constructor |].
  repeat split; assumption.
Defined.

(** ** Routes without a delay *)

Lemma py_sum_from (xs : list Z) :
  forall a, fold_left Z.add xs a = a + py_sum xs.
Proof.
  unfold py_sum. induction xs as [| x xs IH]; intros a; simpl.
  - lia.
  - rewrite IH, (IH x). lia.
Qed.

Lemma py_sum_app (xs ys : list Z) :
  py_sum (xs ++ ys) = py_sum xs + py_sum ys.
Proof.
  unfold py_sum at 1. rewrite fold_left_app. fold (py_sum xs).
  apply py_sum_from.
Qed.

Lemma count_on_time_app (xs ys : list Summary.t) :
  count_on_time (xs ++ ys) = count_on_time xs + count_on_time ys.
Proof.
  unfold count_on_time. now rewrite filter_app, map_app, py_sum_app.
Qed.

Lemma count_on_time_cons (r : Summary.t) (rs : list Summary.t) :
  count_on_time (r :: rs) =
  (if Summary.delay r =? 0 then 1 else 0) + count_on_time rs.
Proof.
  unfold count_on_time. simpl.
  destruct (Summary.delay r =? 0); simpl; [| lia].
  unfold py_sum. simpl. apply py_sum_from.
Qed.

Lemma summary_stats_on_time (routes : list Summary.t) (s : stats) :
  summary_stats routes = Ok s -> on_time s = count_on_time routes.
Proof.
  unfold summary_stats.
  destruct (if Z.of_nat (Datatypes.length routes) >? 0
            then truediv (py_sum (map Summary.delay routes))
                         (Z.of_nat (Datatypes.length routes))
            else Ok (float_of_int 0)) as [avg | e]; simpl; [| discriminate].
  destruct (if truthy routes then py_max (map Summary.delay routes) else Ok 0)
    as [mx | e]; simpl; [| discriminate].
  intros H. injection H as <-. reflexivity.
Qed.

(** C10. A departure without a ['delay'] key is summarised with delay 0:
    the summary is emitted by [find_route], adds one to the on-time count of
    any list it belongs to, and is left out by [check_delays] for every
    threshold above zero. *)
Theorem missing_delay_is_on_time
    (api : Upstream) (from_station_id to_station_id : Z)
    (departures : list Route.t) (route : Route.t) :
  get_departures api from_station_id 50 = Ok departures ->
  In route departures ->
  In to_station_id (stop_ids route) ->
  Route.delay route = None ->
  let r := summary_of from_station_id to_station_id route in
  Summary.delay r = 0 /\
  (exists routes,
      find_route api from_station_id to_station_id 50 = Ok routes /\
      In r routes) /\
  (forall before after s,
      summary_stats (before ++ r :: after) = Ok s ->
      on_time s = count_on_time before + 1 + count_on_time after) /\
  (forall T out,
      T > 0 ->
      check_delays api from_station_id to_station_id T = Ok out ->
      ~ In r out).
Proof.
  intros Hdep Hroute Hstop Hdelay r.
  assert (Hzero : Summary.delay r = 0).
  { unfold r, summary_of; simpl. now rewrite Hdelay. }
  assert (Hfind := find_route_spec api from_station_id to_station_id 50
                     departures Hdep).
  split; [exact Hzero |]. split; [| split].
  - eexists. split; [exact Hfind |].
    apply in_map. apply filter_In. split; [exact Hroute |].
    now apply has_stop_In.
  - intros before after s Hs.
    rewrite (summary_stats_on_time _ _ Hs), count_on_time_app, count_on_time_cons.
    rewrite Hzero, Z.eqb_refl. lia.
  - intros T out HT Hcheck Hin.
    rewrite (check_delays_filter _ _ _ _ _ HT Hfind) in Hcheck.
    injection Hcheck as <-.
    apply filter_In in Hin as [_ Hle]. apply Z.leb_le in Hle. lia.
Qed.

Lemma missing_delay_is_on_time_witness :
  let f := STATIONS.KARLOVY_VARY_TERMINAL in
  let t := STATIONS.SOKOLOV_TERMINAL in
  let r := summary_of f t Sample.quiet_route in
  get_departures Sample.service f 50 = Ok Sample.board /\
  In Sample.quiet_route Sample.board /\
  In t (stop_ids Sample.quiet_route) /\
  Route.delay Sample.quiet_route = None /\
  Summary.delay r = 0 /\
  (exists routes, find_route Sample.service f t 50 = Ok routes /\ In r routes) /\
  (forall before after s,
      summary_stats (before ++ r :: after) = Ok s ->
      on_time s = count_on_time before + 1 + count_on_time after) /\
  (forall T out,
      T > 0 -> check_delays Sample.service f t T = Ok out -> ~ In r out).
Proof.
  intros f t r.
  assert (H1 : get_departures Sample.service f 50 = Ok Sample.board)
    by reflexivity.
  assert (H2 : In Sample.quiet_route Sample.board)
    by (right; left; reflexivity).
  assert (H3 : In t (stop_ids Sample.quiet_route))
    by (right; left; reflexivity).
  assert (H4 : Route.delay Sample.quiet_route = None) by reflexivity.
  split; [exact H1 |]. split; [exact H2 |]. split; [exact H3 |].
  split; [exact H4 |].
  exact (missing_delay_is_on_time Sample.service f t Sample.board
           Sample.quiet_route H1 H2 H3 H4).
Defined.

(** ** [find_station] *)

Lemma fold_station_step_all (city : City.t) (stations : list Station.t) :
  forall acc,
    fold_left (station_step_all city) stations acc =
    (acc ++ map (emit city) stations)%list.
Proof.
  induction stations as [| st rest IH]; intros acc; simpl.
  - now rewrite app_nil_r.
  - rewrite IH. unfold station_step_all. now rewrite <- app_assoc.
Qed.

Lemma fold_station_step_test (sl : string) (city : City.t)
    (stations : list Station.t) :
  forall acc,
    fold_left (station_step_test sl city) stations acc =
    (acc ++ map (emit city) (filter (station_matches sl) stations))%list.
Proof.
  induction stations as [| st rest IH]; intros acc; simpl.
  - now rewrite app_nil_r.
  - rewrite IH. unfold station_step_test.
    destruct (station_matches sl st); simpl; [| reflexivity].
    now rewrite <- app_assoc.
Qed.

Lemma fold_city_step (sl : string) (cities : list City.t) :
  forall acc,
    fold_left (city_step sl) cities acc =
    (acc ++ flat_map (city_step sl []) cities)%list.
Proof.
  induction cities as [| city rest IH]; intros acc; simpl.
  - now rewrite app_nil_r.
  - rewrite IH. rewrite app_assoc. f_equal.
    unfold city_step.
    destruct (is_substring sl (lower (City.name city))).
    + now rewrite !fold_station_step_all.
    + now rewrite !fold_station_step_test.
Qed.

Lemma fold_country_step (sl : string) (locations : list Country.t) :
  forall acc,
    fold_left (country_step sl) locations acc =
    (acc ++ flat_map (fun country =>
                        flat_map (city_step sl [])
                                 (get (Country.cities country) []))
                     locations)%list.
Proof.
  induction locations as [| country rest IH]; intros acc; simpl.
  - now rewrite app_nil_r.
  - rewrite IH. unfold country_step. rewrite fold_city_step.
    now rewrite <- app_assoc.
Qed.

(** The result of [find_station] is the concatenation of the city passes,
    country by country. *)
Lemma find_station_spec (api : Upstream) (term : string)
    (locations : list Country.t) :
  get_all_locations api = Ok locations ->
  find_station api term =
  Ok (flat_map (fun country =>
                  flat_map (city_step (lower term) [])
                           (get (Country.cities country) []))
               locations).
Proof.
  intros H. unfold find_station. rewrite H. simpl.
  now rewrite fold_country_step.
Qed.

(** C8, as stated, fails: [STRASSE] is [straße] in upper case, but in lower
    case it is [strasse], which does not occur in the lower-cased name of
    the station that [straße] finds. *)
Lemma find_station_sharp_s_counterexample :
  ~ case_insensitive_at Demo.central_service "straße" "STRASSE".
Proof.
  unfold case_insensitive_at. intros H.
  assert (Hcase : differ_only_in_case "straße" "STRASSE")
    by (left; vm_compute; reflexivity).
  specialize (H Hcase). vm_compute in H. discriminate.
Qed.

(** C8, amended. Two search terms with the same lower-cased form, such as
    [sokolov] and [SOKOLOV], give the same result of [find_station] over the
    same location directory. *)
Theorem find_station_case_insensitive
    (api : Upstream) (term1 term2 : string) :
  lower term1 = lower term2 ->
  find_station api term1 = find_station api term2.
Proof.
  intros H. unfold find_station. now rewrite H.
Qed.

Lemma find_station_case_insensitive_witness :
  lower "sokolov" = lower "SOKOLOV" /\
  lower "plzeň" = lower "PLZEŇ" /\
  find_station Sample.service "sokolov" = find_station Sample.service "SOKOLOV" /\
  find_station Demo.central_service "plzeň"
  = find_station Demo.central_service "PLZEŇ".
Proof.
  assert (H1 : lower "sokolov" = lower "SOKOLOV") by (vm_compute; reflexivity).
  assert (H2 : lower "plzeň" = lower "PLZEŇ") by (vm_compute; reflexivity).
  split; [exact H1 |]. split; [exact H2 |]. split.
  - exact (find_station_case_insensitive Sample.service "sokolov" "SOKOLOV" H1).
  - exact (find_station_case_insensitive Demo.central_service "plzeň" "PLZEŇ" H2).
Defined.

(** C9. [find_station] runs one pass per city of the directory, country by
    country, and its result is the passes one after the other.  In a pass,
    when the lowered search term occurs in the lowered city name, every
    station of the city is appended, once and in order, whatever its own
    name, and no station is tested; when it does not, exactly the stations
    passing the name or full-name test are appended; either way the pass
    appends no more records than the city has stations. *)
Theorem find_station_city_pass
    (api : Upstream) (term : string) (locations : list Country.t) :
  get_all_locations api = Ok locations ->
  let search_lower := lower term in
  find_station api term
  = Ok (flat_map (fun country =>
                    flat_map (city_step search_lower [])
                             (get (Country.cities country) []))
                 locations) /\
  forall (results : list Match.t) (city : City.t),
    let stations := get (City.stations city) [] in
    (is_substring search_lower (lower (City.name city)) = true ->
     city_step search_lower results city
     = (results ++ map (emit city) stations)%list) /\
    (is_substring search_lower (lower (City.name city)) = false ->
     city_step search_lower results city
     = (results ++ map (emit city)
                       (filter (station_matches search_lower) stations))%list) /\
    (List.length (city_step search_lower results city)
     <= List.length results + List.length stations)%nat.
Proof.
  intros Hloc search_lower.
  split; [exact (find_station_spec api term locations Hloc) |].
  intros results city stations. unfold city_step. fold stations.
  destruct (is_substring search_lower (lower (City.name city))).
  - rewrite fold_station_step_all.
    split; [reflexivity |]. split; [discriminate |].
    rewrite length_app, length_map. lia.
  - rewrite fold_station_step_test.
    split; [discriminate |]. split; [reflexivity |].
    rewrite length_app, length_map.
    pose proof (filter_length_le (station_matches search_lower) stations).
    lia.
Qed.

Lemma find_station_city_pass_witness :
  get_all_locations Demo.central_service = Ok Demo.central_directory /\
  find_station Demo.central_service "PLZEŇ" = Ok Demo.plzen_results /\
  is_substring (lower "PLZEŇ") (lower (City.name Demo.plzen_city)) = true /\
  city_step (lower "PLZEŇ") [] Demo.plzen_city
  = map (emit Demo.plzen_city) (get (City.stations Demo.plzen_city) []) /\
  is_substring (lower "PLZEŇ") (lower (City.name Demo.praha_city)) = false /\
  city_step (lower "PLZEŇ") [] Demo.praha_city
  = map (emit Demo.praha_city)
        (filter (station_matches (lower "PLZEŇ"))
                (get (City.stations Demo.praha_city) [])).
Proof.
  destruct (find_station_city_pass Demo.central_service "PLZEŇ"
              Demo.central_directory eq_refl) as [Hfind Hpass].
  destruct (Hpass [] Demo.plzen_city) as [Hall _].
  destruct (Hpass [] Demo.praha_city) as [_ [Hsome _]].
  assert (Hyes : is_substring (lower "PLZEŇ")
                   (lower (City.name Demo.plzen_city)) = true)
    by (vm_compute; reflexivity).
  assert (Hno : is_substring (lower "PLZEŇ")
                  (lower (City.name Demo.praha_city)) = false)
    by (vm_compute; reflexivity).
  split; [reflexivity |].
  split; [rewrite Hfind; vm_compute; reflexivity |].
  split; [exact Hyes |]. split; [exact (Hall Hyes) |].
  split; [exact Hno |]. exact (Hsome Hno).
Defined.

(** ** [print_delays_summary] *)

Lemma truediv_nonzero (a b : Z) :
  b <> 0 -> truediv a b <> Raise ZeroDivisionError.
Proof.
  intros Hb. unfold truediv.
  apply Z.eqb_neq in Hb. rewrite Hb.
  destruct (SFdiv prec emax (float_of_int a) (float_of_int b)); discriminate.
Qed.

(** C6. On the empty list [print_delays_summary] prints the notice and
    nothing else, the statistics are not computed; and on no list does it
    raise [ZeroDivisionError]. *)
Theorem print_delays_summary_no_division_by_zero :
  print_delays_summary [] = Ok no_routes_notice /\
  (forall routes, print_delays_summary routes <> Raise ZeroDivisionError).
Proof.
  split; [reflexivity |].
  intros [| r rest]; [discriminate |].
  unfold print_delays_summary, summary_stats.
  set (routes := r :: rest).
  change (truthy routes) with true. cbv iota beta. simpl negb. cbv iota.
  replace (Z.of_nat (Datatypes.length routes) >? 0) with true
    by (symmetry; apply Z.gtb_lt; unfold routes; simpl Datatypes.length; lia).
  pose proof (truediv_nonzero (py_sum (map Summary.delay routes))
                (Z.of_nat (Datatypes.length routes))) as Hdiv.
  destruct (truediv (py_sum (map Summary.delay routes))
              (Z.of_nat (Datatypes.length routes))) as [avg | e].
  - simpl. discriminate.
  - simpl. intros H. injection H as ->.
    apply Hdiv; [unfold routes; simpl Datatypes.length; lia | reflexivity].
Qed.

(** C7. For routes with delays 0, 5 and 15 the summary reports three
    routes, one on time, two delayed, an average of 6.7 (20/3 in binary64,
    printed with one decimal) and a maximum of 15. *)
Theorem print_delays_summary_0_5_15 (routes : list Summary.t) :
  map Summary.delay routes = [0; 5; 15] ->
  summary_stats routes
  = Ok (mk_stats 3 1 2 (S754_finite false 7505999378950827 (-50)) 15) /\
  format_1f (S754_finite false 7505999378950827 (-50)) = "6.7" /\
  print_delays_summary routes
  = Ok [ NL ++ Colors.BOLD ++ Colors.CYAN ++ "=== DELAY SUMMARY ==="
            ++ Colors.RESET;
         "Total routes: 3";
         "On time: " ++ Colors.GREEN ++ "1" ++ Colors.RESET;
         "Delayed: " ++ Colors.RED ++ "2" ++ Colors.RESET;
         "Average delay: " ++ Colors.YELLOW ++ "6.7 minutes" ++ Colors.RESET;
         "Maximum delay: " ++ Colors.RED ++ "15 minutes" ++ Colors.RESET;
         EmptyString ].
Proof.
  intros H.
  destruct routes as [| [n1 l1 d1 s1 dt1 at1 dp1 ap1 v1 st1]
                        [| [n2 l2 d2 s2 dt2 at2 dp2 ap2 v2 st2]
                           [| [n3 l3 d3 s3 dt3 at3 dp3 ap3 v3 st3] [| r4 rest]]]];
    simpl in H; try discriminate.
  injection H as -> -> ->.
  split; [| split]; vm_compute; reflexivity.
Qed.

Lemma print_delays_summary_0_5_15_witness :
  map Summary.delay Sample.three_routes = [0; 5; 15] /\
  summary_stats Sample.three_routes
  = Ok (mk_stats 3 1 2 (S754_finite false 7505999378950827 (-50)) 15) /\
  format_1f (S754_finite false 7505999378950827 (-50)) = "6.7" /\
  print_delays_summary Sample.three_routes
  = Ok [ NL ++ Colors.BOLD ++ Colors.CYAN ++ "=== DELAY SUMMARY ==="
            ++ Colors.RESET;
         "Total routes: 3";
         "On time: " ++ Colors.GREEN ++ "1" ++ Colors.RESET;
         "Delayed: " ++ Colors.RED ++ "2" ++ Colors.RESET;
         "Average delay: " ++ Colors.YELLOW ++ "6.7 minutes" ++ Colors.RESET;
         "Maximum delay: " ++ Colors.RED ++ "15 minutes" ++ Colors.RESET;
         EmptyString ].
Proof.
  split; [reflexivity |].
  apply (print_delays_summary_0_5_15 Sample.three_routes).
  reflexivity.
Defined.

(** ** The front end *)

(** C5, as stated, fails: a run that exits with code 0 and prints text that
    is not JSON (here the first line [main] prints) is answered with the
    success envelope around the raw text, not with a decoded payload. *)
Lemma get_delays_text_output_not_verbatim :
  ~ payload_verbatim read_json (Completed 0 banner_head EmptyString).
Proof.
  unfold payload_verbatim. intros [data [Hload _]].
  vm_compute in Hload. discriminate.
Qed.

(** C5, amended. A run that exits with code 0 is answered with status 200:
    the body is the decoded standard output when it decodes as JSON, and the
    envelope [{status: success, raw_output: <stdout>}] otherwise.  A run that
    exits with another code is answered with [{status: error, message:
    <stderr>}] and status 500, and a run that raises with [{status: error,
    message: <text of the exception>}] and status 500. *)
Theorem get_delays_response (json_loads : string -> option json) :
  (forall out err data,
      json_loads out = Some data ->
      get_delays json_loads (Completed 0 out err) = mk_response data 200) /\
  (forall out err,
      json_loads out = None ->
      get_delays json_loads (Completed 0 out err)
      = mk_response (success_envelope out) 200) /\
  (forall returncode out err,
      returncode <> 0 ->
      get_delays json_loads (Completed returncode out err)
      = mk_response (error_envelope err) 500) /\
  (forall message,
      get_delays json_loads (RunRaised message)
      = mk_response (error_envelope message) 500).
Proof.
  repeat split.
  - intros out err data H. simpl. now rewrite H.
  - intros out err H. simpl. now rewrite H.
  - intros rc out err Hrc. simpl.
    apply Z.eqb_neq in Hrc. now rewrite Hrc.
Qed.

Lemma get_delays_response_witness :
  read_json "[1, 2]" = Some (JArray [JInt 1; JInt 2]) /\
  get_delays read_json (Completed 0 "[1, 2]" EmptyString)
  = mk_response (JArray [JInt 1; JInt 2]) 200 /\
  read_json banner_head = None /\
  get_delays read_json (Completed 0 banner_head EmptyString)
  = mk_response (success_envelope banner_head) 200 /\
  1 <> 0 /\
  get_delays read_json (Completed 1 EmptyString "Error: timed out")
  = mk_response (error_envelope "Error: timed out") 500.
Proof.
  destruct (get_delays_response read_json) as [Hjson [Htext [Hfail _]]].
  split; [reflexivity |].
  split; [apply (Hjson "[1, 2]" EmptyString); reflexivity |].
  split; [reflexivity |].
  split; [apply (Htext banner_head EmptyString); reflexivity |].
  split; [discriminate |].
  apply (Hfail 1 EmptyString "Error: timed out"). discriminate.
Defined.

(** * Further properties of the client *)

(** ** Strings *)

Lemma str_app_assoc (a b c : string) : (a ++ b) ++ c = a ++ (b ++ c).
Proof.
  induction a as [| x a IH]; simpl; [reflexivity | now rewrite IH].
Qed.

Lemma str_app_nil_r (a : string) : a ++ EmptyString = a.
Proof.
  induction a as [| x a IH]; simpl; [reflexivity | now rewrite IH].
Qed.

Lemma prefix_spec (a b : string) :
  String.prefix a b = true <-> exists c, b = a ++ c.
Proof.
  revert b. induction a as [| x a IH]; intros [| y b]; simpl.
  - split; [intros _; now exists EmptyString | reflexivity].
  - split; [intros _; now exists (String y b) | reflexivity].
  - split; [discriminate | intros [c Hc]; discriminate].
  - destruct (ascii_dec x y) as [-> | Hne].
    + rewrite IH. split; intros [c Hc]; exists c.
      * now rewrite Hc.
      * now injection Hc.
    + split; [discriminate |].
      intros [c Hc]. injection Hc as Hxy _. now symmetry in Hxy.
Qed.

Lemma is_substring_spec (needle hay : string) :
  is_substring needle hay = true <->
  exists pre post, hay = pre ++ needle ++ post.
Proof.
  induction hay as [| y hay IH].
  - cbn [is_substring]. rewrite orb_false_r, prefix_spec. split.
    + intros [c Hc]. now exists EmptyString, c.
    + intros [pre [post H]]. destruct pre; [now exists post | discriminate].
  - cbn [is_substring]. rewrite orb_true_iff, prefix_spec, IH. split.
    + intros [[c Hc] | [pre [post H]]].
      * now exists EmptyString, c.
      * exists (String y pre), post. simpl. now rewrite H.
    + intros [pre [post H]]. destruct pre as [| x pre].
      * left. now exists post.
      * right. injection H as _ H. now exists pre, post.
Qed.

Lemma is_substring_trans (a b c : string) :
  is_substring a b = true -> is_substring b c = true ->
  is_substring a c = true.
Proof.
  rewrite !is_substring_spec.
  intros [p1 [q1 H1]] [p2 [q2 H2]].
  exists (p2 ++ p1), (q1 ++ q2).
  rewrite H2, H1. now rewrite !str_app_assoc.
Qed.

Lemma is_substring_empty (hay : string) : is_substring EmptyString hay = true.
Proof.
  apply is_substring_spec. now exists EmptyString, hay.
Qed.

(** ** More on [find_station] *)

Lemma city_pass_cases (sl : string) (city : City.t) :
  (is_substring sl (lower (City.name city)) = true ->
   city_step sl [] city = map (emit city) (get (City.stations city) [])) /\
  (is_substring sl (lower (City.name city)) = false ->
   city_step sl [] city
   = map (emit city) (filter (station_matches sl) (get (City.stations city) []))).
Proof.
  unfold city_step.
  destruct (is_substring sl (lower (City.name city))).
  - rewrite fold_station_step_all. split; [reflexivity | discriminate].
  - rewrite fold_station_step_test. split; [discriminate | reflexivity].
Qed.

Lemma find_station_In (api : Upstream) (term : string)
    (locations : list Country.t) (results : list Match.t) (m : Match.t) :
  get_all_locations api = Ok locations ->
  find_station api term = Ok results ->
  (In m results <->
   exists country city station,
     In country locations /\
     In city (get (Country.cities country) []) /\
     In station (get (City.stations city) []) /\
     m = emit city station /\
     (is_substring (lower term) (lower (City.name city)) = true \/
      station_matches (lower term) station = true)).
Proof.
  intros Hloc Hfind.
  rewrite (find_station_spec api term locations Hloc) in Hfind.
  injection Hfind as <-.
  rewrite in_flat_map. split.
  - intros [country [Hcountry Hm]].
    apply in_flat_map in Hm as [city [Hcity Hm]].
    exists country, city.
    destruct (city_pass_cases (lower term) city) as [Hyes Hno].
    destruct (is_substring (lower term) (lower (City.name city))) eqn:E.
    + rewrite (Hyes eq_refl) in Hm. apply in_map_iff in Hm as [st [<- Hst]].
      exists st. repeat split; auto.
    + rewrite (Hno eq_refl) in Hm. apply in_map_iff in Hm as [st [<- Hst]].
      apply filter_In in Hst as [Hst Hmatch].
      exists st. repeat split; auto.
  - intros [country [city [st [Hcountry [Hcity [Hst [-> Hmatch]]]]]]].
    exists country. split; [exact Hcountry |].
    apply in_flat_map. exists city. split; [exact Hcity |].
    destruct (city_pass_cases (lower term) city) as [Hyes Hno].
    destruct (is_substring (lower term) (lower (City.name city))) eqn:E.
    + rewrite (Hyes eq_refl). now apply in_map.
    + rewrite (Hno eq_refl). apply in_map. apply filter_In.
      split; [exact Hst |].
      destruct Hmatch as [H | H]; [discriminate | exact H].
Qed.

Lemma find_station_inv (api : Upstream) (term : string) (results : list Match.t) :
  find_station api term = Ok results ->
  exists locations, get_all_locations api = Ok locations.
Proof.
  unfold find_station.
  destruct (get_all_locations api) as [locations | e]; simpl.
  - intros _. now exists locations.
  - discriminate.
Qed.

Lemma station_matches_weaken (sl1 sl2 : string) (station : Station.t) :
  is_substring sl1 sl2 = true ->
  station_matches sl2 station = true ->
  station_matches sl1 station = true.
Proof.
  unfold station_matches. intros Hsub H.
  apply orb_true_iff in H. apply orb_true_iff.
  destruct H as [H | H]; [left | right];
    exact (is_substring_trans _ _ _ Hsub H).
Qed.

(** X1. A record is in the result of [find_station] exactly when it is the
    record of a station of the directory whose city name contains the
    lowered search term, or whose own name or full name does. *)
Theorem find_station_membership
    (api : Upstream) (term : string)
    (locations : list Country.t) (results : list Match.t) (m : Match.t) :
  get_all_locations api = Ok locations ->
  find_station api term = Ok results ->
  (In m results <->
   exists country city station,
     In country locations /\
     In city (get (Country.cities country) []) /\
     In station (get (City.stations city) []) /\
     m = emit city station /\
     (is_substring (lower term) (lower (City.name city)) = true \/
      station_matches (lower term) station = true)).
Proof.
  apply find_station_In.
Qed.

Lemma find_station_membership_witness :
  get_all_locations Demo.central_service = Ok Demo.central_directory /\
  find_station Demo.central_service "PLZEŇ" = Ok Demo.plzen_results /\
  forall m,
    In m Demo.plzen_results <->
    exists country city station,
      In country Demo.central_directory /\
      In city (get (Country.cities country) []) /\
      In station (get (City.stations city) []) /\
      m = emit city station /\
      (is_substring (lower "PLZEŇ") (lower (City.name city)) = true \/
       station_matches (lower "PLZEŇ") station = true).
Proof.
  assert (H : find_station Demo.central_service "PLZEŇ"
              = Ok Demo.plzen_results) by (vm_compute; reflexivity).
  split; [reflexivity |]. split; [exact H |].
  intros m.
  exact (find_station_membership Demo.central_service "PLZEŇ"
           Demo.central_directory Demo.plzen_results m eq_refl H).
Defined.

(** X2. The empty search term matches every city, so [find_station]
    returns the record of every station of the directory, in directory
    order. *)
Theorem find_station_empty_term
    (api : Upstream) (locations : list Country.t) :
  get_all_locations api = Ok locations ->
  find_station api EmptyString =
  Ok (flat_map (fun country =>
                  flat_map (fun city =>
                              map (emit city) (get (City.stations city) []))
                           (get (Country.cities country) []))
               locations).
Proof.
  intros Hloc. rewrite (find_station_spec api EmptyString locations Hloc).
  f_equal. apply flat_map_ext. intros country.
  apply flat_map_ext. intros city.
  apply (city_pass_cases (lower EmptyString) city).
  apply is_substring_empty.
Qed.

Lemma find_station_empty_term_witness :
  get_all_locations Sample.service = Ok Sample.directory /\
  find_station Sample.service EmptyString =
  Ok (flat_map (fun country =>
                  flat_map (fun city =>
                              map (emit city) (get (City.stations city) []))
                           (get (Country.cities country) []))
               Sample.directory).
Proof.
  split; [reflexivity |].
  apply (find_station_empty_term Sample.service Sample.directory).
  reflexivity.
Defined.

(** X3. Shortening the search term never loses a station: when the lowered
    [term1] occurs in the lowered [term2], every record found for [term2]
    is also found for [term1]. *)
Theorem find_station_narrowing
    (api : Upstream) (term1 term2 : string) (results1 results2 : list Match.t) :
  is_substring (lower term1) (lower term2) = true ->
  find_station api term1 = Ok results1 ->
  find_station api term2 = Ok results2 ->
  incl results2 results1.
Proof.
  intros Hsub H1 H2 m Hm.
  destruct (find_station_inv api term1 results1 H1) as [locations Hloc].
  destruct (proj1 (find_station_In api term2 locations results2 m Hloc H2) Hm)
    as [country [city [st [Hcountry [Hcity [Hst [Hemit Hmatch]]]]]]].
  apply (find_station_In api term1 locations results1 m Hloc H1).
  exists country, city, st. repeat split; auto.
  destruct Hmatch as [H | H]; [left | right].
  - exact (is_substring_trans _ _ _ Hsub H).
  - exact (station_matches_weaken _ _ _ Hsub H).
Qed.

Lemma find_station_narrowing_witness :
  is_substring (lower "PLZEŇ") (lower "Plzeň, Centrální") = true /\
  find_station Demo.central_service "PLZEŇ" = Ok Demo.plzen_results /\
  find_station Demo.central_service "Plzeň, Centrální"
  = Ok [Match.mk "Plzeň" 3100 "CAN" 372825000
                 "Plzeň, Centrální autobusové nádraží" "Husova 60"] /\
  incl [Match.mk "Plzeň" 3100 "CAN" 372825000
                 "Plzeň, Centrální autobusové nádraží" "Husova 60"]
       Demo.plzen_results.
Proof.
  assert (H0 : is_substring (lower "PLZEŇ") (lower "Plzeň, Centrální") = true)
    by (vm_compute; reflexivity).
  assert (H1 : find_station Demo.central_service "PLZEŇ"
               = Ok Demo.plzen_results) by (vm_compute; reflexivity).
  assert (H2 : find_station Demo.central_service "Plzeň, Centrální"
               = Ok [Match.mk "Plzeň" 3100 "CAN" 372825000
                              "Plzeň, Centrální autobusové nádraží"
                              "Husova 60"]) by (vm_compute; reflexivity).
  split; [exact H0 |]. split; [exact H1 |]. split; [exact H2 |].
  exact (find_station_narrowing Demo.central_service "PLZEŇ"
           "Plzeň, Centrální" _ _ H0 H1 H2).
Defined.

(** ** More on [find_route] and [check_delays] *)

Lemma fold_scan_no_origin (f t : Z) (stops : list Stop.t) :
  ~ In f (map Stop.stationId stops) ->
  forall v,
    departure_time (fold_left (scan_step f t) stops v) = departure_time v /\
    departure_platform (fold_left (scan_step f t) stops v) = departure_platform v.
Proof.
  intros Hout. apply fold_scan_keeps_departure.
  apply Forall_forall. intros x Hx Heq. apply Hout.
  apply in_map_iff. now exists x.
Qed.

(** X4. [find_route] does not require the origin among the stops: a
    departure that lists the destination but not the origin is still
    emitted, with departure time and departure platform [None]. *)
Theorem find_route_origin_absent
    (api : Upstream) (from_station_id to_station_id limit : Z)
    (routes : list Summary.t) (r : Summary.t) :
  find_route api from_station_id to_station_id limit = Ok routes ->
  In r routes ->
  ~ In from_station_id (map Stop.stationId (Summary.all_stations r)) ->
  Summary.departure_time r = None /\ Summary.departure_platform r = None.
Proof.
  intros Hfind Hin Hout.
  destruct (find_route_member _ _ _ _ _ _ Hfind Hin) as [route [_ ->]].
  unfold summary_of in *. simpl in *.
  apply (fold_scan_no_origin from_station_id to_station_id _ Hout no_times).
Qed.

Lemma find_route_origin_absent_witness :
  let f := STATIONS.KARLOVY_VARY_TERMINAL in
  let t := STATIONS.SOKOLOV_TERMINAL in
  let r := summary_of f t Demo.detached_route in
  find_route Demo.detached_service f t 50 = Ok [r] /\
  In r [r] /\
  ~ In f (map Stop.stationId (Summary.all_stations r)) /\
  Summary.departure_time r = None /\ Summary.departure_platform r = None /\
  Summary.arrival_time r = Some "2024-05-01T10:40:00Z".
Proof.
  intros f t r.
  assert (H1 : find_route Demo.detached_service f t 50 = Ok [r])
    by reflexivity.
  assert (H2 : In r [r]) by (left; reflexivity).
  assert (H3 : ~ In f (map Stop.stationId (Summary.all_stations r))).
  { simpl. intros [H | [H | []]]; discriminate. }
  destruct (find_route_origin_absent Demo.detached_service f t 50 [r] r
              H1 H2 H3) as [Hd Hp].
  exact (conj H1 (conj H2 (conj H3 (conj Hd (conj Hp eq_refl))))).
Defined.

Lemma check_delays_inv (api : Upstream) (f t T : Z) (out : list Summary.t) :
  check_delays api f t T = Ok out ->
  exists routes,
    find_route api f t 50 = Ok routes /\
    out = if 0 <? T then filter (fun r => T <=? Summary.delay r) routes
          else routes.
Proof.
  intros H. unfold check_delays in H.
  destruct (find_route api f t 50) as [routes | e] eqn:E; simpl in H;
    [| discriminate].
  exists routes. split; [reflexivity |].
  rewrite Z.gtb_ltb in H. destruct (0 <? T); injection H as <-.
  - apply filter_ext. intros r. apply Z.geb_leb.
  - reflexivity.
Qed.

Lemma filter_idem_weaker {A : Type} (p q : A -> bool) (l : list A) :
  (forall x, q x = true -> p x = true) ->
  filter q (filter p l) = filter q l.
Proof.
  intros Himp. induction l as [| x l IH]; simpl; [reflexivity |].
  destruct (p x) eqn:Ep; simpl.
  - now rewrite IH.
  - destruct (q x) eqn:Eq; [| exact IH].
    apply Himp in Eq. congruence.
Qed.

(** X5. Raising the threshold only removes routes: for [T1 <= T2] the
    result for [T2] is the result for [T1] filtered once more (kept whole
    when [T2 <= 0], by delay at least [T2] otherwise), so it is included in
    it and keeps its order. *)
Theorem check_delays_monotone
    (api : Upstream) (from_station_id to_station_id T1 T2 : Z)
    (out1 out2 : list Summary.t) :
  T1 <= T2 ->
  check_delays api from_station_id to_station_id T1 = Ok out1 ->
  check_delays api from_station_id to_station_id T2 = Ok out2 ->
  out2 = filter (fun r => (T2 <=? 0) || (T2 <=? Summary.delay r)) out1 /\
  incl out2 out1.
Proof.
  intros HT H1 H2.
  apply check_delays_inv in H1 as [routes [Hfind ->]].
  apply check_delays_inv in H2 as [routes' [Hfind' ->]].
  rewrite Hfind in Hfind'. injection Hfind' as <-.
  assert (Heq : (if 0 <? T2
                 then filter (fun r => T2 <=? Summary.delay r) routes
                 else routes)
                = filter (fun r => (T2 <=? 0) || (T2 <=? Summary.delay r))
                    (if 0 <? T1
                     then filter (fun r => T1 <=? Summary.delay r) routes
                     else routes)).
  { destruct (0 <? T2) eqn:E2.
    - apply Z.ltb_lt in E2.
      assert (Hext : forall r : Summary.t,
                 (T2 <=? 0) || (T2 <=? Summary.delay r)
                 = (T2 <=? Summary.delay r)).
      { intros r. replace (T2 <=? 0) with false; [reflexivity |].
        symmetry. apply Z.leb_gt. lia. }
      rewrite (filter_ext _ _ Hext).
      destruct (0 <? T1); [| reflexivity].
      symmetry. apply filter_idem_weaker.
      intros r Hr. apply Z.leb_le in Hr. apply Z.leb_le. lia.
    - apply Z.ltb_ge in E2.
      replace (0 <? T1) with false by (symmetry; apply Z.ltb_ge; lia).
      assert (Hext : forall r : Summary.t,
                 (T2 <=? 0) || (T2 <=? Summary.delay r) = true).
      { intros r. replace (T2 <=? 0) with true; [reflexivity |].
        symmetry. apply Z.leb_le. lia. }
      rewrite (filter_ext _ (fun _ => true) Hext). symmetry.
      apply filter_true. }
  split; [exact Heq |].
  rewrite Heq. apply incl_filter.
Qed.

Lemma check_delays_monotone_witness :
  let f := STATIONS.KARLOVY_VARY_TERMINAL in
  let t := STATIONS.SOKOLOV_TERMINAL in
  let all := map (summary_of f t)
                 [Sample.loop_route; Sample.quiet_route; Sample.late_route] in
  let some := map (summary_of f t) [Sample.loop_route; Sample.late_route] in
  let late := map (summary_of f t) [Sample.late_route] in
  (0 <= 5 /\ check_delays Sample.service f t 0 = Ok all /\
   check_delays Sample.service f t 5 = Ok some /\
   some = filter (fun r => (5 <=? 0) || (5 <=? Summary.delay r)) all /\
   incl some all) /\
  (5 <= 10 /\ check_delays Sample.service f t 10 = Ok late /\
   late = filter (fun r => (10 <=? 0) || (10 <=? Summary.delay r)) some /\
   incl late some).
Proof.
  intros f t all some late.
  split.
  - split; [lia |]. split; [reflexivity |]. split; [reflexivity |].
    apply (check_delays_monotone Sample.service f t 0 5 all some);
      [lia | reflexivity | reflexivity].
  - split; [lia |]. split; [reflexivity |].
    apply (check_delays_monotone Sample.service f t 5 10 some late);
      [lia | reflexivity | reflexivity].
Defined.

(** ** More on [print_delays_summary] *)

Lemma py_sum_cons (x : Z) (xs : list Z) : py_sum (x :: xs) = x + py_sum xs.
Proof.
  unfold py_sum at 1. simpl. apply py_sum_from.
Qed.

Lemma py_sum_ones {A : Type} (l : list A) :
  py_sum (map (fun _ => 1) l) = Z.of_nat (List.length l).
Proof.
  induction l as [| x l IH]; [reflexivity |].
  cbn [map List.length]. rewrite py_sum_cons, IH. lia.
Qed.

Lemma summary_stats_inv (routes : list Summary.t) (s : stats) :
  summary_stats routes = Ok s ->
  total s = Z.of_nat (List.length routes) /\
  on_time s = count_on_time routes /\
  delayed s = Z.of_nat (List.length routes) - count_on_time routes /\
  (if truthy routes then py_max (map Summary.delay routes) else Ok 0)
  = Ok (max_delay s).
Proof.
  unfold summary_stats.
  destruct (if Z.of_nat (Datatypes.length routes) >? 0
            then truediv (py_sum (map Summary.delay routes))
                         (Z.of_nat (Datatypes.length routes))
            else Ok (float_of_int 0)) as [avg | e]; simpl; [| discriminate].
  destruct (if truthy routes then py_max (map Summary.delay routes) else Ok 0)
    as [mx | e]; simpl; [| discriminate].
  intros H. injection H as <-. simpl. repeat split; reflexivity.
Qed.

(** X7. The counts of the summary: the total is the number of routes, the
    on-time count the number of routes with delay 0, and the delayed count
    the number of all the others (a negative delay counts as delayed); so
    the two counts are non-negative and add up to the total. *)
Theorem summary_stats_counts (routes : list Summary.t) (s : stats) :
  summary_stats routes = Ok s ->
  total s = Z.of_nat (List.length routes) /\
  on_time s
  = Z.of_nat (List.length (filter (fun r => Summary.delay r =? 0) routes)) /\
  delayed s
  = Z.of_nat (List.length
                (filter (fun r => negb (Summary.delay r =? 0)) routes)) /\
  0 <= on_time s <= total s /\
  on_time s + delayed s = total s.
Proof.
  intros H. destruct (summary_stats_inv routes s H) as [Ht [Ho [Hd _]]].
  unfold count_on_time in Ho, Hd. rewrite py_sum_ones in Ho, Hd.
  pose proof (filter_length (fun r => Summary.delay r =? 0) routes) as Hlen.
  cbv beta in Hlen.
  rewrite Ht, Ho, Hd. repeat split; lia.
Qed.

Lemma summary_stats_counts_witness :
  summary_stats Sample.three_routes
  = Ok (mk_stats 3 1 2 (S754_finite false 7505999378950827 (-50)) 15) /\
  3 = Z.of_nat (List.length Sample.three_routes) /\
  1 = Z.of_nat (List.length
                  (filter (fun r => Summary.delay r =? 0) Sample.three_routes)) /\
  2 = Z.of_nat (List.length
                  (filter (fun r => negb (Summary.delay r =? 0))
                          Sample.three_routes)) /\
  0 <= 1 <= 3 /\
  1 + 2 = 3.
Proof.
  split; [reflexivity |].
  apply (summary_stats_counts Sample.three_routes
           (mk_stats 3 1 2 (S754_finite false 7505999378950827 (-50)) 15)).
  reflexivity.
Defined.

Lemma fold_max_ge_init (xs : list Z) :
  forall a, a <= fold_left Z.max xs a.
Proof.
  induction xs as [| x xs IH]; intros a; simpl; [lia |].
  specialize (IH (Z.max a x)). lia.
Qed.

Lemma fold_max_upper (xs : list Z) :
  forall a, Forall (fun x => x <= fold_left Z.max xs a) xs.
Proof.
  induction xs as [| x xs IH]; intros a; simpl; constructor.
  - pose proof (fold_max_ge_init xs (Z.max a x)). lia.
  - apply IH.
Qed.

Lemma fold_max_attained (xs : list Z) :
  forall a, In (fold_left Z.max xs a) (a :: xs).
Proof.
  induction xs as [| x xs IH]; intros a; simpl; [now left |].
  destruct (IH (Z.max a x)) as [H | H].
  - destruct (Z.max_spec a x) as [[_ Hm] | [_ Hm]].
    + right. left. rewrite <- H. now symmetry.
    + left. rewrite <- H. now symmetry.
  - right. right. exact H.
Qed.

(** X8. The maximum the summary reports is the delay of one of the routes
    and no route has a larger delay. *)
Theorem summary_stats_max (routes : list Summary.t) (s : stats) :
  summary_stats routes = Ok s ->
  routes <> [] ->
  Forall (fun r => Summary.delay r <= max_delay s) routes /\
  exists r, In r routes /\ Summary.delay r = max_delay s.
Proof.
  intros H Hne. destruct (summary_stats_inv routes s H) as [_ [_ [_ Hmax]]].
  destruct routes as [| r0 rest]; [contradiction |].
  simpl in Hmax. injection Hmax as Hmax.
  split.
  - apply Forall_forall. intros r Hr.
    assert (Hd : In (Summary.delay r) (Summary.delay r0 :: map Summary.delay rest))
      by (change (In (Summary.delay r) (map Summary.delay (r0 :: rest)));
          now apply in_map).
    destruct Hd as [Hd | Hd].
    + rewrite <- Hmax, <- Hd. apply fold_max_ge_init.
    + pose proof (fold_max_upper (map Summary.delay rest) (Summary.delay r0))
        as Hall.
      rewrite Forall_forall in Hall. rewrite <- Hmax. now apply Hall.
  - pose proof (fold_max_attained (map Summary.delay rest) (Summary.delay r0))
      as Hin.
    rewrite Hmax in Hin.
    change (In (max_delay s) (map Summary.delay (r0 :: rest))) in Hin.
    apply in_map_iff in Hin as [r [Hr Hin]]. now exists r.
Qed.

Lemma summary_stats_max_witness :
  summary_stats Sample.three_routes
  = Ok (mk_stats 3 1 2 (S754_finite false 7505999378950827 (-50)) 15) /\
  Sample.three_routes <> [] /\
  Forall (fun r => Summary.delay r <= 15) Sample.three_routes /\
  exists r, In r Sample.three_routes /\ Summary.delay r = 15.
Proof.
  split; [reflexivity |]. split; [discriminate |].
  apply (summary_stats_max Sample.three_routes
           (mk_stats 3 1 2 (S754_finite false 7505999378950827 (-50)) 15));
    [reflexivity | discriminate].
Defined.

Lemma print_delays_summary_cases (routes : list Summary.t) :
  print_delays_summary routes = Raise OverflowError \/
  exists lines,
    print_delays_summary routes = Ok lines /\
    List.length lines = (if truthy routes then 7 else 1)%nat.
Proof.
  destruct routes as [| r rest].
  - right. exists no_routes_notice. split; reflexivity.
  - unfold print_delays_summary, summary_stats.
    set (routes := r :: rest).
    change (truthy routes) with true. cbv iota beta. simpl negb. cbv iota.
    replace (Z.of_nat (Datatypes.length routes) >? 0) with true
      by (symmetry; apply Z.gtb_lt; unfold routes; simpl Datatypes.length; lia).
    unfold truediv.
    replace (Z.of_nat (Datatypes.length routes) =? 0) with false
      by (symmetry; apply Z.eqb_neq; unfold routes; simpl Datatypes.length; lia).
    destruct (SFdiv prec emax
                (float_of_int (py_sum (map Summary.delay routes)))
                (float_of_int (Z.of_nat (Datatypes.length routes))));
      simpl; (now left) || (right; eexists; split; reflexivity).
Qed.

(** X9. [print_delays_summary] either prints, one line for the empty list
    and seven lines otherwise, or raises [OverflowError] from the division;
    [max] is never applied to an empty sequence. *)
Theorem print_delays_summary_outcomes (routes : list Summary.t) :
  print_delays_summary routes = Raise OverflowError \/
  exists lines,
    print_delays_summary routes = Ok lines /\
    List.length lines = (if truthy routes then 7 else 1)%nat.
Proof.
  apply print_delays_summary_cases.
Qed.

(** ** [_format_delay] *)

(** X10. The colour of a formatted delay tells its class: green and
    [ON TIME] exactly for 0, red exactly for 10 and more, yellow for every
    other value, negative ones included (printed with the plus sign before
    the minus). *)
Theorem format_delay_classes (delay : Z) :
  (_format_delay delay = Colors.GREEN ++ "ON TIME" ++ Colors.RESET
   <-> delay = 0) /\
  (_format_delay delay
   = Colors.YELLOW ++ "+" ++ str_int delay ++ " min" ++ Colors.RESET
   <-> delay <> 0 /\ delay < 10) /\
  (_format_delay delay
   = Colors.RED ++ "+" ++ str_int delay ++ " min" ++ Colors.RESET
   <-> 10 <= delay).
Proof.
  unfold _format_delay.
  destruct (delay =? 0) eqn:E0; [| destruct (delay <? 10) eqn:E10].
  - apply Z.eqb_eq in E0.
    repeat split; try discriminate; try (intros; assumption || lia).
  - apply Z.eqb_neq in E0. apply Z.ltb_lt in E10.
    repeat split; try discriminate; try (intros; assumption || lia).
  - apply Z.eqb_neq in E0. apply Z.ltb_ge in E10.
    repeat split; try discriminate; try (intros; assumption || lia).
Qed.

(** ** [print_routes] *)

Lemma enumerate_combine {A : Type} (xs : list A) :
  forall start : nat,
    enumerate xs (Z.of_nat start)
    = map (fun kr : nat * A => (Z.of_nat (fst kr), snd kr))
          (combine (seq start (List.length xs)) xs).
Proof.
  induction xs as [| x xs IH]; intros start; simpl; [reflexivity |].
  f_equal. rewrite <- IH. f_equal. lia.
Qed.

Section PrintingFacts.

Variable isoformat_HM : string -> option string.

Lemma route_entry_out (show_details : bool) (out : string)
    (entry : Z * Summary.t) :
  route_entry isoformat_HM show_details out entry
  = out ++ route_entry isoformat_HM show_details EmptyString entry.
Proof.
  destruct entry as [i route]. unfold route_entry, print, write.
  destruct (truthy_str (Summary.departure_platform route));
    destruct (truthy_str (Summary.arrival_platform route));
    destruct show_details;
    try destruct (truthy_str (Summary.vehicle_standard route));
    rewrite ?str_app_assoc; reflexivity.
Qed.

Lemma fold_route_entry (show_details : bool) (entries : list (Z * Summary.t)) :
  forall out,
    fold_left (route_entry isoformat_HM show_details) entries out
    = out ++ join (map (route_entry isoformat_HM show_details EmptyString)
                       entries).
Proof.
  induction entries as [| e entries IH]; intros out; simpl.
  - now rewrite str_app_nil_r.
  - rewrite IH, route_entry_out. now rewrite str_app_assoc.
Qed.

Lemma print_routes_text (routes : list Summary.t) (show_details : bool)
    (out : string) :
  print_routes isoformat_HM routes show_details out
  = out ++
    (if truthy routes
     then routes_header (List.length routes)
          ++ join (map (route_entry isoformat_HM show_details EmptyString)
                       (enumerate routes 1))
     else notice_line).
Proof.
  unfold print_routes. destruct (truthy routes); simpl negb; cbv iota.
  - rewrite fold_route_entry. unfold print, routes_header.
    rewrite !str_app_assoc. reflexivity.
  - unfold print, notice_line. now rewrite !str_app_assoc.
Qed.

Lemma route_entry_visible (out : string) (i : Z) (r r' : Summary.t) :
  visible r = visible r' ->
  route_entry isoformat_HM false out (i, r)
  = route_entry isoformat_HM false out (i, r').
Proof.
  destruct r, r'. unfold visible. simpl. intros H.
  injection H as -> -> -> -> -> -> ->. reflexivity.
Qed.

Lemma fold_route_entry_visible (rs : list Summary.t) :
  forall rs' start out,
    map visible rs = map visible rs' ->
    fold_left (route_entry isoformat_HM false) (enumerate rs start) out
    = fold_left (route_entry isoformat_HM false) (enumerate rs' start) out.
Proof.
  induction rs as [| r rs IH]; intros [| r' rs'] start out H;
    try discriminate; [reflexivity |].
  simpl in H.
  pose proof (f_equal (hd (visible r)) H) as Hr.
  pose proof (f_equal (@tl _) H) as Hrs.
  cbn [hd tl] in Hr, Hrs. cbn [enumerate fold_left].
  rewrite (route_entry_visible out start r r' Hr).
  now apply IH.
Qed.

End PrintingFacts.

(** X11. What [print_routes] appends to the output: for the empty list the
    notice alone; otherwise the three header lines with the number of
    routes, then one block per route, in list order, the k-th block carrying
    the number k. *)
Theorem print_routes_blocks
    (isoformat_HM : string -> option string)
    (routes : list Summary.t) (show_details : bool) (out : string) :
  print_routes isoformat_HM routes show_details out
  = out ++
    match routes with
    | [] => notice_line
    | _ :: _ =>
        routes_header (List.length routes)
        ++ join (map (fun kr : nat * Summary.t =>
                        route_entry isoformat_HM show_details EmptyString
                                    (Z.of_nat (fst kr), snd kr))
                     (combine (seq 1 (List.length routes)) routes))
    end.
Proof.
  rewrite print_routes_text.
  destruct routes as [| r rest]; [reflexivity |].
  change (truthy (r :: rest)) with true. cbv iota.
  change 1 with (Z.of_nat 1). rewrite enumerate_combine, map_map.
  reflexivity.
Qed.

(** X12. Without details the output of [print_routes] does not depend on
    the free seats, the vehicle standard or the stop list of the routes:
    two lists that agree on the other fields print the same text. *)
Theorem print_routes_without_details
    (isoformat_HM : string -> option string)
    (routes routes' : list Summary.t) (out : string) :
  map visible routes = map visible routes' ->
  print_routes isoformat_HM routes false out
  = print_routes isoformat_HM routes' false out.
Proof.
  intros H. unfold print_routes.
  assert (Hlen : List.length routes = List.length routes').
  { rewrite <- (length_map visible routes), H. apply length_map. }
  assert (Htruthy : truthy routes = truthy routes').
  { destruct routes, routes'; try discriminate; reflexivity. }
  rewrite Htruthy, Hlen.
  destruct (truthy routes'); simpl negb; cbv iota; [| reflexivity].
  now apply fold_route_entry_visible.
Qed.

Lemma print_routes_without_details_witness :
  map visible Demo.shown = map visible Demo.shown_otherwise /\
  print_routes Demo.clock Demo.shown false EmptyString
  = print_routes Demo.clock Demo.shown_otherwise false EmptyString.
Proof.
  split; [reflexivity |].
  apply (print_routes_without_details Demo.clock Demo.shown
           Demo.shown_otherwise EmptyString).
  reflexivity.
Defined.

(** ** [main] *)

Lemma fold_print_out (lines : list string) :
  forall out, fold_left print lines out = out ++ lines_text lines.
Proof.
  unfold lines_text.
  induction lines as [| l lines IH]; intros out; simpl.
  - now rewrite str_app_nil_r.
  - rewrite IH, (IH (print EmptyString l)). unfold print. simpl.
    now rewrite !str_app_assoc.
Qed.

Section MainFacts.

Variable isoformat_HM : string -> option string.

Lemma main_try_inv (api : Upstream) (out text : string) :
  main_try isoformat_HM api out = Ok text ->
  exists routes lines,
    find_route api 17902024 721181001 50 = Ok routes /\
    print_delays_summary routes = Ok lines /\
    text =
    (let body := fold_left print lines
                   (print_routes isoformat_HM routes true out) in
     let delayed := filter (fun r => 10 <=? Summary.delay r) routes in
     if truthy delayed
     then print_routes isoformat_HM delayed false
            (print body significant_heading)
     else body).
Proof.
  unfold main_try.
  destruct (find_route api 17902024 721181001 50) as [routes | e] eqn:Ef;
    cbn [bind]; [| discriminate].
  destruct (print_delays_summary routes) as [lines | e] eqn:Es; cbn [bind];
    [| discriminate].
  intros H. exists routes, lines. split; [reflexivity |].
  split; [exact Es |].
  rewrite (filter_ext (fun r => 10 <=? Summary.delay r)
             (fun r => Summary.delay r >=? 10)
             (fun r => eq_sym (Z.geb_leb (Summary.delay r) 10))).
  cbv zeta.
  destruct (truthy (filter (fun r => Summary.delay r >=? 10) routes));
    injection H as <-; reflexivity.
Qed.

Lemma main_try_extends (api : Upstream) (out text : string) :
  main_try isoformat_HM api out = Ok text ->
  exists rest, text = out ++ rest.
Proof.
  intros H. apply main_try_inv in H as [routes [lines [_ [_ ->]]]].
  cbv zeta.
  destruct (truthy (filter (fun r => 10 <=? Summary.delay r) routes)).
  - rewrite print_routes_text. unfold print.
    rewrite fold_print_out, print_routes_text.
    rewrite !str_app_assoc. eexists. reflexivity.
  - rewrite fold_print_out, print_routes_text.
    rewrite !str_app_assoc. eexists. reflexivity.
Qed.

End MainFacts.

(** X13. When no departure calls at the destination, [main] prints the
    notice twice, once from each printer, prints no summary and no
    significant-delay section, and the script exits with status 0. *)
Theorem main_no_routes
    (isoformat_HM : string -> option string) (api : Upstream) (out : string) :
  find_route api 17902024 721181001 50 = Ok [] ->
  main_try isoformat_HM api out = Ok (out ++ notice_line ++ notice_line) /\
  main_exit_status isoformat_HM api = 0.
Proof.
  intros H.
  assert (Htry : forall o,
             main_try isoformat_HM api o = Ok (o ++ notice_line ++ notice_line)).
  { intros o. unfold main_try. rewrite H. cbn [bind]. cbv zeta.
    change (print_delays_summary []) with (Ok no_routes_notice).
    cbn [bind filter truthy]. f_equal.
    rewrite fold_print_out, print_routes_text. cbn [truthy].
    change (lines_text no_routes_notice) with notice_line.
    apply str_app_assoc. }
  split; [apply Htry |].
  unfold main_exit_status. now rewrite Htry.
Qed.

Lemma main_no_routes_witness :
  find_route Demo.empty_service 17902024 721181001 50 = Ok [] /\
  main_try Demo.clock Demo.empty_service main_preamble
  = Ok (main_preamble ++ notice_line ++ notice_line) /\
  main_exit_status Demo.clock Demo.empty_service = 0.
Proof.
  split; [reflexivity |].
  apply (main_no_routes Demo.clock Demo.empty_service main_preamble).
  reflexivity.
Defined.

(** X14. The routes [main] lists under its significant-delay heading are
    the routes [check_delays] returns for the threshold 10 between the same
    two stations; the heading and the list are left out when there are
    none. *)
Theorem main_significant_delays
    (isoformat_HM : string -> option string) (api : Upstream)
    (out text : string) :
  main_try isoformat_HM api out = Ok text ->
  exists routes lines delayed,
    find_route api 17902024 721181001 50 = Ok routes /\
    print_delays_summary routes = Ok lines /\
    check_delays api 17902024 721181001 10 = Ok delayed /\
    let body := fold_left print lines
                  (print_routes isoformat_HM routes true out) in
    text = match delayed with
           | [] => body
           | _ :: _ => print_routes isoformat_HM delayed false
                         (print body significant_heading)
           end.
Proof.
  intros H.
  apply main_try_inv in H as [routes [lines [Hfind [Hsum ->]]]].
  exists routes, lines, (filter (fun r => 10 <=? Summary.delay r) routes).
  split; [exact Hfind |]. split; [exact Hsum |].
  split; [apply check_delays_filter; [lia | exact Hfind] |].
  cbv zeta.
  destruct (filter (fun r => 10 <=? Summary.delay r) routes); reflexivity.
Qed.

Lemma main_significant_delays_witness :
  main_try Demo.clock Sample.service main_preamble = Ok Demo.report /\
  exists routes lines delayed,
    find_route Sample.service 17902024 721181001 50 = Ok routes /\
    print_delays_summary routes = Ok lines /\
    check_delays Sample.service 17902024 721181001 10 = Ok delayed /\
    let body := fold_left print lines
                  (print_routes Demo.clock routes true main_preamble) in
    Demo.report = match delayed with
                  | [] => body
                  | _ :: _ => print_routes Demo.clock delayed false
                                (print body significant_heading)
                  end.
Proof.
  assert (H : main_try Demo.clock Sample.service main_preamble
              = Ok Demo.report) by (vm_compute; reflexivity).
  split; [exact H |].
  exact (main_significant_delays Demo.clock Sample.service main_preamble
           Demo.report H).
Defined.

(** X15. The script exits with status 1 exactly when the departures request
    raises or the division of the summary overflows, and with status 0
    otherwise. *)
Theorem main_exit_status_cases
    (isoformat_HM : string -> option string) (api : Upstream) :
  (main_exit_status isoformat_HM api = 1 <->
   (exists e, get_departures api 17902024 50 = Raise e) \/
   (exists routes,
       find_route api 17902024 721181001 50 = Ok routes /\
       print_delays_summary routes = Raise OverflowError)) /\
  (main_exit_status isoformat_HM api = 0 <->
   exists routes lines,
     find_route api 17902024 721181001 50 = Ok routes /\
     print_delays_summary routes = Ok lines).
Proof.
  unfold main_exit_status, main_try, find_route.
  destruct (get_departures api 17902024 50) as [deps | e]; simpl.
  - set (routes := fold_left (route_step 17902024 721181001) deps []).
    destruct (print_delays_summary_cases routes) as [Hov | [lines [Hok _]]].
    + rewrite Hov. simpl. split; split.
      * intros _. right. now exists routes.
      * reflexivity.
      * discriminate.
      * intros [rs [ls [Hrs Hls]]]. injection Hrs as <-. congruence.
    + rewrite Hok. simpl.
      destruct (truthy (filter (fun r => Summary.delay r >=? 10) routes));
        split; split; try discriminate; try reflexivity.
      * intros [[e He] | [rs [Hrs Hov]]]; [discriminate |].
        injection Hrs as <-. congruence.
      * intros _. now exists routes, lines.
      * intros [[e He] | [rs [Hrs Hov]]]; [discriminate |].
        injection Hrs as <-. congruence.
      * intros _. now exists routes, lines.
  - split; split.
    + intros _. left. now exists e.
    + reflexivity.
    + discriminate.
    + intros [rs [ls [Hrs _]]]. discriminate.
Qed.

(** ** The script behind the endpoint *)

Lemma main_preamble_head :
  exists rest, main_preamble = String (ascii_of_N 27) rest.
Proof.
  eexists. vm_compute. reflexivity.
Qed.

Lemma read_json_rejects_escape (s : string) :
  read_json (String (ascii_of_N 27) s) = None.
Proof.
  unfold read_json.
  replace (2 * String.length (String (ascii_of_N 27) s) + 2)%nat
    with (S (2 * String.length (String (ascii_of_N 27) s) + 1))%nat by lia.
  reflexivity.
Qed.

(** X16. A successful run of the script never reaches the endpoint as
    decoded JSON: its output starts with an escape code, so for every
    decoder that rejects such a text [/api/delays] answers 200 with the
    envelope [{status: success, raw_output: <the whole output>}]. *)
Theorem script_success_is_raw_output
    (json_loads : string -> option json)
    (isoformat_HM : string -> option string)
    (api : Upstream) (text err : string) :
  (forall s, json_loads (String (ascii_of_N 27) s) = None) ->
  main_try isoformat_HM api main_preamble = Ok text ->
  main_exit_status isoformat_HM api = 0 /\
  get_delays json_loads
    (Completed (main_exit_status isoformat_HM api) text err)
  = mk_response (success_envelope text) 200.
Proof.
  intros Hloads Htry.
  assert (Hexit : main_exit_status isoformat_HM api = 0)
    by (unfold main_exit_status; now rewrite Htry).
  split; [exact Hexit |]. rewrite Hexit.
  destruct (main_try_extends isoformat_HM api main_preamble text Htry)
    as [rest ->].
  destruct main_preamble_head as [pre Hpre].
  unfold get_delays. cbn [Z.eqb].
  rewrite Hpre at 1. cbn [append]. now rewrite Hloads.
Qed.

Lemma script_success_is_raw_output_witness :
  (forall s, read_json (String (ascii_of_N 27) s) = None) /\
  main_try Demo.clock Sample.service main_preamble = Ok Demo.report /\
  main_exit_status Demo.clock Sample.service = 0 /\
  get_delays read_json
    (Completed (main_exit_status Demo.clock Sample.service)
               Demo.report EmptyString)
  = mk_response (success_envelope Demo.report) 200.
Proof.
  assert (H : main_try Demo.clock Sample.service main_preamble
              = Ok Demo.report) by (vm_compute; reflexivity).
  split; [exact read_json_rejects_escape |]. split; [exact H |].
  exact (script_success_is_raw_output read_json Demo.clock Sample.service
           Demo.report EmptyString read_json_rejects_escape H).
Defined.

(** X17. The status of the endpoint's response is 200 or 500; it is 200
    exactly when the subprocess completed with return code 0, and every 500
    carries an error envelope. *)
Theorem get_delays_status
    (json_loads : string -> option json) (run : run_outcome) :
  (status (get_delays json_loads run) = 200 \/
   status (get_delays json_loads run) = 500) /\
  (status (get_delays json_loads run) = 200 <->
   exists out err, run = Completed 0 out err) /\
  (status (get_delays json_loads run) = 500 ->
   exists message, body (get_delays json_loads run) = error_envelope message).
Proof.
  destruct run as [message | rc out err]; simpl.
  - split; [now right |]. split.
    + split; [discriminate | intros [o [e H]]; discriminate].
    + intros _. now exists message.
  - destruct (rc =? 0) eqn:E.
    + apply Z.eqb_eq in E. subst rc.
      destruct (json_loads out); simpl;
        (split; [now left |]; split;
         [split; [intros _; now exists out, err | reflexivity]
         | discriminate]).
    + apply Z.eqb_neq in E. simpl. split; [now right |]. split.
      * split; [discriminate |].
        intros [o [e H]]. injection H as H _ _. contradiction.
      * intros _. now exists err.
Qed.

(** ** Requests *)

(** X18. [_make_request] returns a value only for a delivered body that
    decodes, never a default or empty result.  It prints a diagnostic
    exactly for an HTTP error, a URL error or a body that does not decode,
    and then raises; any other exception passes through with nothing
    printed. *)
Theorem make_request_outcomes
    (urlopen : string -> list (string * string) -> transport)
    (json_loads : string -> string + json)
    (language endpoint : string) :
  let reply := urlopen (BASE_URL ++ endpoint) (Http.headers language) in
  let outcome := Http._make_request urlopen json_loads language endpoint in
  (forall value,
      snd outcome = Ok value <->
      exists data, reply = Delivered data /\ json_loads data = inr value) /\
  (fst outcome <> [] <->
   (exists code reason error_body,
       reply = HTTPFailure code reason error_body /\
       snd outcome = Raise (HTTPError code)) \/
   (exists reason, reply = URLFailure reason /\ snd outcome = Raise URLError) \/
   (exists data e,
       reply = Delivered data /\ json_loads data = inl e /\
       snd outcome = Raise JSONDecodeError)) /\
  (forall e, reply = Escaped e -> outcome = ([], Raise e)).
Proof.
  unfold Http._make_request.
  destruct (urlopen (BASE_URL ++ endpoint) (Http.headers language))
    as [data | code reason error_body | reason | e0]; cbv zeta.
  - destruct (json_loads data) as [msg | v] eqn:E; simpl.
    + split; [| split].
      * intros value. split; [discriminate |].
        intros [d [Hd Hv]]. injection Hd as <-. congruence.
      * split; [| discriminate].
        intros _. right. right. now exists data, msg.
      * discriminate.
    + split; [| split].
      * intros value. split.
        -- intros H. injection H as <-. now exists data.
        -- intros [d [Hd Hv]]. injection Hd as <-. congruence.
      * split; [intros H; now contradiction H |].
        intros [[c [r [b [H _]]]] | [[r [H _]] | [d [e [Hd [He _]]]]]];
          try discriminate.
        injection Hd as <-. congruence.
      * discriminate.
  - simpl. split; [| split].
    + intros value. split; [discriminate | intros [d [Hd _]]; discriminate].
    + split; [| discriminate].
      intros _. left. now exists code, reason, error_body.
    + discriminate.
  - simpl. split; [| split].
    + intros value. split; [discriminate | intros [d [Hd _]]; discriminate].
    + split; [| discriminate].
      intros _. right. left. now exists reason.
    + discriminate.
  - simpl. split; [| split].
    + intros value. split; [discriminate | intros [d [Hd _]]; discriminate].
    + split; [intros H; now contradiction H |].
      intros [[c [r [b [H _]]]] | [[r [H _]] | [d [e [Hd _]]]]]; discriminate.
    + intros e H. injection H as <-. reflexivity.
Qed.

Lemma str_app_inv_head (a x y : string) : a ++ x = a ++ y -> x = y.
Proof.
  induction a as [| c a IH]; simpl; intros H; [exact H |].
  injection H as H. now apply IH.
Qed.

Lemma string_of_uint_no_slash (d : Decimal.uint) :
  has_char "/" (NilEmpty.string_of_uint d) = false.
Proof.
  induction d; simpl; assumption || reflexivity.
Qed.

Lemma str_int_no_slash (n : Z) : has_char "/" (str_int n) = false.
Proof.
  unfold str_int. destruct (Z.to_int n); simpl;
    apply string_of_uint_no_slash.
Qed.

Lemma str_int_inj (a b : Z) : str_int a = str_int b -> a = b.
Proof.
  unfold str_int. intros H.
  apply (f_equal NilEmpty.int_of_string) in H.
  rewrite !NilEmpty.isi in H. injection H as H.
  now apply DecimalZ.to_int_inj.
Qed.

Lemma split_at_char (c : ascii) (a : string) :
  forall b x y,
    has_char c a = false -> has_char c b = false ->
    a ++ String c x = b ++ String c y ->
    a = b /\ x = y.
Proof.
  induction a as [| a0 a IH]; intros [| b0 b] x y Ha Hb H; simpl in *.
  - injection H as ->. now split.
  - injection H as <- _. rewrite Ascii.eqb_refl in Hb. discriminate.
  - injection H as -> _. rewrite Ascii.eqb_refl in Ha. discriminate.
  - injection H as -> H.
    apply orb_false_iff in Ha as [_ Ha]. apply orb_false_iff in Hb as [_ Hb].
    destruct (IH b x y Ha Hb H) as [-> ->]. now split.
Qed.

Lemma route_endpoint_inj (kind : string) (id1 l1 id2 l2 : Z) :
  "/routes/" ++ str_int id1 ++ String "/" (kind ++ str_int l1)
  = "/routes/" ++ str_int id2 ++ String "/" (kind ++ str_int l2) ->
  id1 = id2 /\ l1 = l2.
Proof.
  intros H. apply str_app_inv_head in H.
  apply split_at_char in H as [Hid Hl]; try apply str_int_no_slash.
  apply str_app_inv_head in Hl.
  split; now apply str_int_inj.
Qed.

(** X19. The URL of a departures (or arrivals) request determines the
    station and the limit: two requests share a URL only when both agree,
    and an arrivals request never shares its URL with a departures
    request. *)
Theorem request_urls_distinct (id1 l1 id2 l2 : Z) :
  (BASE_URL ++ Http.departures_endpoint id1 l1
   = BASE_URL ++ Http.departures_endpoint id2 l2
   <-> id1 = id2 /\ l1 = l2) /\
  (BASE_URL ++ Http.arrivals_endpoint id1 l1
   = BASE_URL ++ Http.arrivals_endpoint id2 l2
   <-> id1 = id2 /\ l1 = l2) /\
  BASE_URL ++ Http.arrivals_endpoint id1 l1
  <> BASE_URL ++ Http.departures_endpoint id2 l2.
Proof.
  unfold Http.departures_endpoint, Http.arrivals_endpoint.
  split; [| split].
  - split.
    + intros H. apply str_app_inv_head in H.
      now apply (route_endpoint_inj "departures?limit=").
    + now intros [-> ->].
  - split.
    + intros H. apply str_app_inv_head in H.
      now apply (route_endpoint_inj "arrivals?limit=").
    + now intros [-> ->].
  - intros H. apply str_app_inv_head in H.
    apply str_app_inv_head in H.
    change (str_int id1 ++ String "/" ("arrivals?limit=" ++ str_int l1)
            = str_int id2 ++ String "/" ("departures?limit=" ++ str_int l2))
      in H.
    apply split_at_char in H as [_ H]; try apply str_int_no_slash.
    discriminate.
Qed.

Lemma make_request_outcomes_witness :
  let outcome :=
    Http._make_request (Demo.still_transport "[1, 2]") Demo.decode "cs"
                       Http.locations_endpoint in
  snd outcome = Ok (JArray [JInt 1; JInt 2]) /\
  Http._make_request (fun _ _ => Escaped ValueError) Demo.decode "cs"
                     Http.locations_endpoint
  = ([], Raise ValueError).
Proof.
  destruct (make_request_outcomes (Demo.still_transport "[1, 2]") Demo.decode
              "cs" Http.locations_endpoint) as [Hvalue _].
  destruct (make_request_outcomes (fun _ _ => Escaped ValueError) Demo.decode
              "cs" Http.locations_endpoint) as [_ [_ Hescaped]].
  split.
  - apply Hvalue. exists "[1, 2]". split; reflexivity.
  - apply Hescaped. reflexivity.
Defined.

Lemma main_exit_status_cases_witness :
  (exists e, get_departures Demo.failing_service 17902024 50 = Raise e) /\
  main_exit_status Demo.clock Demo.failing_service = 1 /\
  main_exit_status Demo.clock Sample.service = 0.
Proof.
  destruct (main_exit_status_cases Demo.clock Demo.failing_service)
    as [Hfail _].
  destruct (main_exit_status_cases Demo.clock Sample.service) as [_ Hok].
  assert (H : exists e,
             get_departures Demo.failing_service 17902024 50 = Raise e)
    by (exists URLError; reflexivity).
  split; [exact H |]. split.
  - apply Hfail. left. exact H.
  - apply Hok. eexists. eexists. split; vm_compute; reflexivity.
Defined.

(** ** [_format_datetime] *)

Lemma replace_Z_app (a b : string) :
  replace_Z (a ++ b) = replace_Z a ++ replace_Z b.
Proof.
  induction a as [| c a IH]; simpl; [reflexivity |].
  destruct (Ascii.eqb c "Z"); simpl; now rewrite IH.
Qed.

Lemma replace_Z_id (s : string) :
  has_char "Z" s = false -> replace_Z s = s.
Proof.
  induction s as [| c s IH]; cbn [replace_Z has_char]; [reflexivity |].
  intros H. apply orb_false_iff in H as [Hc Hs].
  rewrite Ascii.eqb_sym, Hc. now rewrite (IH Hs).
Qed.

(** X20. A timestamp ending in [Z] is read as one ending in [+00:00]: when
    the text before the [Z] holds no other [Z] and the text with [+00:00]
    is accepted by the clock conversion, both spellings are shown as the
    same time. *)
Theorem format_datetime_zulu
    (isoformat_HM : string -> option string) (s hm : string) :
  has_char "Z" s = false ->
  isoformat_HM (s ++ "+00:00") = Some hm ->
  _format_datetime isoformat_HM (Some (s ++ "Z")) = hm /\
  _format_datetime isoformat_HM (Some (s ++ "+00:00")) = hm.
Proof.
  intros Hs Hparse. unfold _format_datetime.
  assert (Ht : forall tail c, truthy_str (Some (s ++ String c tail)) = true)
    by (intros tail c; destruct s; reflexivity).
  rewrite !Ht. simpl negb. cbv iota. cbn [get].
  rewrite !replace_Z_app, (replace_Z_id s Hs).
  change (replace_Z "Z") with "+00:00".
  change (replace_Z "+00:00") with "+00:00".
  now rewrite Hparse.
Qed.

Lemma format_datetime_zulu_witness :
  has_char "Z" "2024-05-01T10:05:00" = false /\
  Demo.clock ("2024-05-01T10:05:00" ++ "+00:00") = Some "10:05" /\
  _format_datetime Demo.clock (Some ("2024-05-01T10:05:00" ++ "Z")) = "10:05" /\
  _format_datetime Demo.clock (Some ("2024-05-01T10:05:00" ++ "+00:00")) = "10:05".
Proof.
  split; [reflexivity |]. split; [reflexivity |].
  apply (format_datetime_zulu Demo.clock "2024-05-01T10:05:00" "10:05");
    reflexivity.
Defined.

(** ** [check_delays] followed by the summary *)

Lemma count_on_time_none (routes : list Summary.t) :
  Forall (fun r => Summary.delay r <> 0) routes -> count_on_time routes = 0.
Proof.
  induction 1 as [| r routes Hr _ IH]; [reflexivity |].
  rewrite count_on_time_cons, IH.
  apply Z.eqb_neq in Hr. now rewrite Hr.
Qed.

(** X21. A summary of what [check_delays] returns for a threshold above
    zero reports no route on time: every listed route has a delay of at
    least the threshold, so the delayed count is the total. *)
Theorem check_delays_summary
    (api : Upstream) (from_station_id to_station_id T : Z)
    (out : list Summary.t) (s : stats) :
  T > 0 ->
  check_delays api from_station_id to_station_id T = Ok out ->
  summary_stats out = Ok s ->
  Forall (fun r => T <= Summary.delay r) out /\
  on_time s = 0 /\
  delayed s = total s.
Proof.
  intros HT Hcheck Hstats.
  apply check_delays_inv in Hcheck as [routes [_ ->]].
  replace (0 <? T) with true in * by (symmetry; apply Z.ltb_lt; lia).
  assert (Hall : Forall (fun r => T <= Summary.delay r)
                   (filter (fun r => T <=? Summary.delay r) routes)).
  { apply Forall_forall. intros r Hr.
    apply filter_In in Hr as [_ Hr]. now apply Z.leb_le. }
  destruct (summary_stats_inv _ s Hstats) as [Ht [Ho [Hd _]]].
  rewrite count_on_time_none in Ho, Hd.
  - split; [exact Hall |]. split; [exact Ho |]. rewrite Hd, Ht. lia.
  - eapply Forall_impl; [| exact Hall]. intros r Hr. cbv beta in Hr. lia.
  - eapply Forall_impl; [| exact Hall]. intros r Hr. cbv beta in Hr. lia.
Qed.

Lemma check_delays_summary_witness :
  10 > 0 /\
  check_delays Sample.service STATIONS.KARLOVY_VARY_TERMINAL
               STATIONS.SOKOLOV_TERMINAL 10 = Ok Demo.late_routes /\
  summary_stats Demo.late_routes = Ok Demo.late_stats /\
  Forall (fun r => 10 <= Summary.delay r) Demo.late_routes /\
  on_time Demo.late_stats = 0 /\
  delayed Demo.late_stats = total Demo.late_stats.
Proof.
  split; [lia |]. split; [reflexivity |].
  split; [vm_compute; reflexivity |].
  apply (check_delays_summary Sample.service STATIONS.KARLOVY_VARY_TERMINAL
           STATIONS.SOKOLOV_TERMINAL 10 Demo.late_routes Demo.late_stats);
    [lia | reflexivity | vm_compute; reflexivity].
Defined.

(** ** A board where every route is on time *)

Lemma all_zero_sum (routes : list Summary.t) :
  Forall (fun r => Summary.delay r = 0) routes ->
  py_sum (map Summary.delay routes) = 0.
Proof.
  induction 1 as [| r routes Hr _ IH]; [reflexivity |].
  cbn [map]. rewrite py_sum_cons, Hr, IH. reflexivity.
Qed.

Lemma all_zero_count (routes : list Summary.t) :
  Forall (fun r => Summary.delay r = 0) routes ->
  count_on_time routes = Z.of_nat (List.length routes).
Proof.
  induction 1 as [| r routes Hr _ IH]; [reflexivity |].
  rewrite count_on_time_cons, Hr, IH. cbn [List.length]. simpl Z.eqb. lia.
Qed.

Lemma all_zero_max (routes : list Summary.t) :
  Forall (fun r => Summary.delay r = 0) routes ->
  fold_left Z.max (map Summary.delay routes) 0 = 0.
Proof.
  induction 1 as [| r routes Hr _ IH]; [reflexivity |].
  cbn [map fold_left]. rewrite Hr. exact IH.
Qed.

(** X22. When every route has delay 0 the summary of a non-empty list
    reports all of them on time, none delayed, an average printed as [0.0]
    and a maximum of 0. *)
Theorem summary_stats_all_on_time (routes : list Summary.t) :
  routes <> [] ->
  Forall (fun r => Summary.delay r = 0) routes ->
  summary_stats routes
  = Ok (mk_stats (Z.of_nat (List.length routes))
                 (Z.of_nat (List.length routes)) 0 (S754_zero false) 0) /\
  format_1f (S754_zero false) = "0.0".
Proof.
  intros Hne Hall. split; [| reflexivity].
  destruct routes as [| r rest]; [contradiction |].
  unfold summary_stats.
  rewrite (all_zero_count _ Hall), (all_zero_sum _ Hall).
  change (truthy (r :: rest)) with true. cbv iota.
  assert (Hmax : py_max (map Summary.delay (r :: rest)) = Ok 0).
  { inversion Hall as [| r' rest' Hr Hrest]; subst.
    cbn [map py_max]. rewrite Hr. now rewrite (all_zero_max _ Hrest). }
  rewrite Hmax.
  cbn [List.length]. rewrite Nat2Z.inj_succ.
  destruct (Z.succ (Z.of_nat (Datatypes.length rest))) as [| p | p] eqn:E;
    try lia.
  cbn. now rewrite Z.pos_sub_diag.
Qed.

Lemma summary_stats_all_on_time_witness :
  Demo.punctual <> [] /\
  Forall (fun r => Summary.delay r = 0) Demo.punctual /\
  summary_stats Demo.punctual = Ok (mk_stats 2 2 0 (S754_zero false) 0) /\
  format_1f (S754_zero false) = "0.0".
Proof.
  assert (H1 : Demo.punctual <> []) by discriminate.
  assert (H2 : Forall (fun r => Summary.delay r = 0) Demo.punctual)
    by (repeat constructor).
  split; [exact H1 |]. split; [exact H2 |].
  exact (summary_stats_all_on_time Demo.punctual H1 H2).
Defined.
